(** * xontrib-cmd-done: duration prompt field and completion notification

    A shallow embedding of [xontrib/cmd_done.py] and the properties of
    its duration formatter, threshold decision, window-focus probe and
    notification dispatch.

    Conventions of the embedding:
    - Python [int] is [Z]; a timestamp or an interval (an [int] or a
      finite [float]) is an exact rational [Q].  The rounding error of a
      floating-point subtraction is not modelled.
    - Python [str] and [bytes] are both [string] (a list of 8-bit
      characters); a [str] is represented by its UTF-8 encoding.  Case
      mapping and white-space classification cover the ASCII range.
    - A call that can raise returns a [result]; the functions that log,
      spawn a process, or send a notification live in the monad [M],
      which reads the [World] and threads a [State]. *)

From Stdlib Require Import ZArith QArith Qround Qabs String Ascii Lia Lqa.
From Stdlib Require Import Decimal DecimalString DecimalPos DecimalZ.
From stdpp Require Import base option list gmap strings.

Local Open Scope string_scope.
Local Open Scope Z_scope.

(** ** Python values and built-ins *)

Module Py.

(** Exceptions (subclasses of [Exception]) that the modelled code can meet. *)
Inductive exn : Type :=
  | IndexError
  | UnicodeDecodeError
  | CalledProcessError (returncode : Z)
  | FileNotFoundError
  | OtherError (name : string).

Inductive result (A : Type) : Type :=
  | Ok (a : A)
  | Raise (e : exn).
Arguments Ok {A} a.
Arguments Raise {A} e.

(** [str(n)] for an [int]: decimal digits, with a leading minus sign. *)
Definition str (n : Z) : string := NilZero.string_of_int (Z.to_int n).

(** [round(x)] with one argument: the nearest integer, a tie going to the
    even neighbour. *)
Definition round (x : Q) : Z :=
  let f := Qfloor x in
  match (x - inject_Z f ?= 1 # 2)%Q with
  | Lt => f
  | Gt => f + 1
  | Eq => if Z.even f then f else f + 1
  end.

(** [divmod(a, b)]: floor division and the remainder with the sign of [b]. *)
Definition divmod (a b : Z) : Z * Z := (a / b, a mod b).

(** [x > y] on numbers. *)
Definition num_gt (x y : Q) : bool :=
  match (x ?= y)%Q with Gt => true | _ => false end.

(** Truth value of an [int] and of a [str]. *)
Definition truthy_int (n : Z) : bool := negb (n =? 0).
Definition truthy_str (s : string) : bool :=
  match s with EmptyString => false | String _ _ => true end.

(** [l[-1]]. *)
Definition last_item {A} (l : list A) : result A :=
  match last l with
  | Some x => Ok x
  | None => Raise IndexError
  end.

Definition code (c : ascii) : N := N_of_ascii c.

(** [str.lower()] on the ASCII range. *)
Definition lower_char (c : ascii) : ascii :=
  let n := code c in
  if ((65 <=? n) && (n <=? 90))%N then ascii_of_N (n + 32) else c.

Fixpoint lower (s : string) : string :=
  match s with
  | EmptyString => EmptyString
  | String c r => String (lower_char c) (lower r)
  end.

(** White space as [bytes.strip()] sees it, and as [str.strip()] sees it
    on the ASCII range (which adds the four separators 0x1c..0x1f). *)
Definition bytes_isspace (c : ascii) : bool :=
  let n := code c in ((n =? 32) || ((9 <=? n) && (n <=? 13)))%N.

Definition str_isspace (c : ascii) : bool :=
  let n := code c in
  ((n =? 32) || ((9 <=? n) && (n <=? 13)) || ((28 <=? n) && (n <=? 31)))%N.

Fixpoint lstrip (sp : ascii -> bool) (s : string) : string :=
  match s with
  | EmptyString => EmptyString
  | String c r => if sp c then lstrip sp r else s
  end.

Fixpoint rstrip (sp : ascii -> bool) (s : string) : string :=
  match s with
  | EmptyString => EmptyString
  | String c r =>
      match rstrip sp r with
      | EmptyString => if sp c then EmptyString else String c EmptyString
      | r' => String c r'
      end
  end.

Definition strip (sp : ascii -> bool) (s : string) : string :=
  rstrip sp (lstrip sp s).

(** [bytes.decode()]: UTF-8, strict.  A [str] being represented by its
    encoding, decoding is the identity on well-formed input and raises on
    anything else. *)
Definition cont (c : ascii) : bool :=
  let n := code c in ((128 <=? n) && (n <=? 191))%N.

Definition between (lo hi : N) (c : ascii) : bool :=
  let n := code c in ((lo <=? n) && (n <=? hi))%N.

Fixpoint utf8_valid (s : string) : bool :=
  match s with
  | EmptyString => true
  | String a s1 =>
      if between 0 127 a then utf8_valid s1 else
      match s1 with
      | EmptyString => false
      | String b s2 =>
          if between 194 223 a then cont b && utf8_valid s2 else
          match s2 with
          | EmptyString => false
          | String c s3 =>
              if between 224 239 a then
                (if between 224 224 a then between 160 191 b
                 else if between 237 237 a then between 128 159 b
                 else cont b)
                && cont c && utf8_valid s3
              else
              match s3 with
              | EmptyString => false
              | String d s4 =>
                  between 240 244 a
                  && (if between 240 240 a then between 144 191 b
                      else if between 244 244 a then between 128 143 b
                      else cont b)
                  && cont c && cont d && utf8_valid s4
              end
          end
      end
  end.

Definition decode (b : string) : result string :=
  if utf8_valid b then Ok b else Raise UnicodeDecodeError.

(** [str(b)] for a [bytes] object [b], that is [repr(b)]: the literal
    [b'...'], quoted with double quotes when the content has a single
    quote and no double quote. *)
Definition hex_digit (n : N) : ascii :=
  if (n <? 10)%N then ascii_of_N (48 + n) else ascii_of_N (87 + n).

Fixpoint occurs (c : ascii) (s : string) : bool :=
  match s with
  | EmptyString => false
  | String a r => Ascii.eqb a c || occurs c r
  end.

(** The double quote character. *)
Definition dquote : ascii := ascii_of_N 34.

Definition repr_quote (b : string) : ascii :=
  if occurs "'"%char b && negb (occurs dquote b) then dquote else "'"%char.

Fixpoint repr_body (q : ascii) (b : string) : string :=
  match b with
  | EmptyString => EmptyString
  | String c r =>
      let n := code c in
      let rest := repr_body q r in
      if Ascii.eqb c q || Ascii.eqb c "\"%char then String "\" (String c rest)
      else if (n =? 9)%N then String "\" (String "t" rest)
      else if (n =? 10)%N then String "\" (String "n" rest)
      else if (n =? 13)%N then String "\" (String "r" rest)
      else if ((n <? 32) || (127 <=? n))%N then
        String "\" (String "x" (String (hex_digit (n / 16))
                                  (String (hex_digit (n mod 16)) rest)))
      else String c rest
  end.

Definition bytes_repr (b : string) : string :=
  let q := repr_quote b in
  String "b" (String q (repr_body q b +:+ String q EmptyString)).

(** [s.split(sep)] for a one-character separator. *)
Fixpoint split (sep : ascii) (s : string) : list string :=
  match s with
  | EmptyString => [EmptyString]
  | String c r =>
      if Ascii.eqb c sep then EmptyString :: split sep r
      else match split sep r with
           | x :: xs => String c x :: xs
           | [] => [String c EmptyString]
           end
  end.

(** [l[i]] for a non-negative index. *)
Definition item {A} (l : list A) (i : nat) : result A :=
  match l !! i with
  | Some x => Ok x
  | None => Raise IndexError
  end.

(** [pat in s] on [bytes]. *)
Fixpoint contains (pat s : string) : bool :=
  String.prefix pat s ||
  match s with
  | EmptyString => false
  | String _ r => contains pat r
  end.

End Py.

Export Py.

(** ** The duration formatter *)

(** [secs_to_readable], lines 33-53. *)
Definition secs_to_readable (secs : Q) : string :=
  let secs := Py.round secs in
  let readable := "" in
  let '(hours, remainder) := divmod secs 3600 in
  let '(minutes, seconds) := divmod remainder 60 in
  let readable :=
    if truthy_int hours then readable +:+ str hours +:+ "h" else readable in
  let readable :=
    if truthy_int hours || truthy_int minutes
    then readable +:+ str minutes +:+ "m" else readable in
  let readable :=
    if truthy_int hours || truthy_int minutes || truthy_int seconds
    then readable +:+ str seconds +:+ "s" else readable in
  readable.

(** ** The host: environment, history, external tools *)

(** The entries of [xsh.env] that the module reads.  [None] is a missing
    key ([env.get] returning its default). *)
Record Env : Type := {
  XONTRIB_CD_LONG_DURATION : option Q;
  XONTRIB_CD_TRIGGER_NOTIFICATION : option bool;
  XONTRIB_CD_NOTIFICATION_APP_NAME : option string;
  TITLE : option string;
  XONTRIB_CD_TERM_PROGRAM_MAP : option (list (string * string));
  WINDOWID : option string;
  __CFBundleIdentifier : option string;
  TERM_PROGRAM : option string
}.

(** [xsh.history]: three parallel lists, the newest entry last. *)
Record History : Type := {
  tss : list (Q * Q);
  rtns : list Z;
  inps : list string
}.

(** The fields set on a [notifypy.Notify] object before [send()]. *)
Record Notification : Type := {
  application_name : string;
  title : string;
  message : string
}.

(** What surrounds a call: the platform, the environment, the external
    commands ([subprocess.check_output] gives the output or raises), the
    host's prompt formatter and the notification back end. *)
Record World : Type := {
  platform_system : string;
  env : Env;
  check_output : list string -> result string;
  prompt_formatter : string -> string;
  notify_send : Notification -> result unit
}.

(** The messages passed to [logging.warning], by call site. *)
Inductive Warning : Type :=
  | WarnXdotool (ex : exn)
  | WarnWindowIdUnset
  | WarnAppNotFound (term : option string) (maps : gmap string string)
  | WarnNotInLsappinfo (appname : string).

(** What a call can change: the warnings logged, the external commands
    run, the notifications handed to the back end, and the memo table of
    [_darwin_get_app_name] (its bound of 128 entries is not modelled). *)
Record State : Type := {
  log : list Warning;
  spawned : list (list string);
  sent : list Notification;
  app_name_cache : gmap string string
}.

Definition init_state : State :=
  {| log := []; spawned := []; sent := []; app_name_cache := ∅ |}.

(** ** The monad of effectful calls *)

Definition M (A : Type) : Type := World -> State -> State * result A.

Definition ret {A} (a : A) : M A := fun _ s => (s, Ok a).

Definition throw {A} (e : exn) : M A := fun _ s => (s, Raise e).

Definition bind {A B} (m : M A) (k : A -> M B) : M B :=
  fun w s =>
    match m w s with
    | (s', Ok a) => k a w s'
    | (s', Raise e) => (s', Raise e)
    end.

(** [try: m except Exception as ex: h ex]. *)
Definition try_except {A} (m : M A) (h : exn -> M A) : M A :=
  fun w s =>
    match m w s with
    | (s', Ok a) => (s', Ok a)
    | (s', Raise e) => h e w s'
    end.

Definition lift {A} (r : result A) : M A := fun _ s => (s, r).

Definition ask : M World := fun w s => (s, Ok w).

Notation "'let*' x ':=' m 'in' k" := (bind m (fun x => k))
  (at level 10, x pattern, m at level 100, k at level 200).
Notation "m ';;' k" := (bind m (fun _ => k))
  (at level 100, k at level 200, right associativity).

Definition record_warning (x : Warning) (s : State) : State :=
  {| log := log s ++ [x]; spawned := spawned s; sent := sent s;
     app_name_cache := app_name_cache s |}.

Definition record_spawn (args : list string) (s : State) : State :=
  {| log := log s; spawned := spawned s ++ [args]; sent := sent s;
     app_name_cache := app_name_cache s |}.

Definition record_sent (noti : Notification) (s : State) : State :=
  {| log := log s; spawned := spawned s; sent := sent s ++ [noti];
     app_name_cache := app_name_cache s |}.

Definition record_app_name (key name : string) (s : State) : State :=
  {| log := log s; spawned := spawned s; sent := sent s;
     app_name_cache := <[key := name]> (app_name_cache s) |}.

(** [_warn], lines 27-30. *)
Definition _warn (x : Warning) : M unit :=
  fun _ s => (record_warning x s, Ok tt).

(** [sp.check_output(args)]. *)
Definition sp_check_output (args : list string) : M string :=
  fun w s => (record_spawn args s, check_output w args).

(** Lines 139-145: the [Notify] object is built, filled in and sent;
    whatever the library raises on the way is the outcome of the call. *)
Definition send (noti : Notification) : M unit :=
  fun w s => (record_sent noti s, notify_send w noti).

(** ** Configuration, lines 8-10 *)

Record Config : Type := {
  LONG_DURATION : Q;
  TRIGGER_NOTIFICATION : bool;
  NOTIFICATION_APP_NAME : string
}.

Definition load_config (e : Env) : Config :=
  {| LONG_DURATION := default 5%Q (XONTRIB_CD_LONG_DURATION e);
     TRIGGER_NOTIFICATION := default true (XONTRIB_CD_TRIGGER_NOTIFICATION e);
     NOTIFICATION_APP_NAME :=
       default (default "xonsh" (TITLE e)) (XONTRIB_CD_NOTIFICATION_APP_NAME e) |}.

(** ** Terminal program names on Darwin *)

Definition defaults : list (string * string) :=
  [("iterm.app", "iTerm2"); ("apple_terminal", "Terminal"); ("vscode", "Code");
   ("pycharm", "PyCharm"); ("kate", "Kate")].

(** The dict comprehension [{key.lower(): val for key, val in items}]:
    entries are written in order, a later one replacing an earlier one
    with the same lowered key. *)
Definition lower_keys (items : list (string * string)) : gmap string string :=
  foldl (fun m kv => <[lower kv.1 := kv.2]> m) ∅ items.

(** [_term_program_mapping], lines 13-18. *)
Definition _term_program_mapping (e : Env) : gmap string string :=
  let maps := default defaults (XONTRIB_CD_TERM_PROGRAM_MAP e) in
  lower_keys maps.

(** The body of [_darwin_get_app_name], lines 23-24. *)
Definition _darwin_get_app_name_body (e : Env) (term_program : string) : string :=
  let maps := _term_program_mapping e in
  default term_program (maps !! lower term_program).

(** [_darwin_get_app_name] under [functools.lru_cache]: a memo table keyed
    by the argument. *)
Definition _darwin_get_app_name (term_program : string) : M string :=
  fun w s =>
    match app_name_cache s !! term_program with
    | Some name => (s, Ok name)
    | None =>
        let name := _darwin_get_app_name_body (env w) term_program in
        (record_app_name term_program name s, Ok name)
    end.

(** ** The window-focus probe *)

(** [is_system], [is_linux_system], [is_darwin_system], lines 56-69. *)
Definition is_system (w : World) (system : string) : bool :=
  bool_decide (platform_system w = system).
Definition is_linux_system (w : World) : bool := is_system w "Linux".
Definition is_darwin_system (w : World) : bool := is_system w "Darwin".

(** [_xdotool_window_id], lines 72-77: [None] after a caught exception. *)
Definition _xdotool_window_id : M (option string) :=
  try_except
    (let* out := sp_check_output ["xdotool"; "getactivewindow"] in
     let* txt := lift (decode out) in
     ret (Some (strip str_isspace txt)))
    (fun ex => _warn (WarnXdotool ex) ;; ret None).

Definition truthy_opt (o : option string) : bool :=
  match o with Some s => truthy_str s | None => false end.

(** [_linux_is_app_window_focused], lines 79-88. *)
Definition _linux_is_app_window_focused : M bool :=
  let* w := ask in
  let winid := WINDOWID (env w) in
  if negb (truthy_opt winid) then
    _warn WarnWindowIdUnset ;; ret false
  else
    let* curr_winid := _xdotool_window_id in
    ret (bool_decide (curr_winid = winid)).

(** [_darwin_is_app_window_focused], lines 91-119. *)
Definition _darwin_is_app_window_focused : M bool :=
  let* w := ask in
  let appname : option string := None in
  let bundle_id := __CFBundleIdentifier (env w) in
  let* appname :=
    if truthy_opt bundle_id then
      let* out := sp_check_output
                    ["lsappinfo"; "find"; "bundleID=" +:+ default "" bundle_id] in
      let out := strip bytes_isspace out in
      let* name := lift (item (split dquote (bytes_repr out)) 1) in
      ret (Some name)
    else ret appname in
  let term := TERM_PROGRAM (env w) in
  let* appname :=
    if negb (truthy_opt appname) then
      if truthy_opt term then
        let* name := _darwin_get_app_name (default "" term) in
        ret (Some name)
      else ret appname
    else ret appname in
  if negb (truthy_opt appname) then
    _warn (WarnAppNotFound term (_term_program_mapping (env w))) ;;
    ret false
  else
    let appname := default "" appname in
    let* out := sp_check_output ["lsappinfo"; "info"; "-app"; appname] in
    (if negb (truthy_str out) then _warn (WarnNotInLsappinfo appname) else ret tt) ;;
    ret (contains "(in front)" out).

(** [is_app_window_focused], lines 122-129. *)
Definition is_app_window_focused : M bool :=
  let* w := ask in
  if is_darwin_system w then _darwin_is_app_window_focused
  else if is_linux_system w then _linux_is_app_window_focused
  else ret false.

(** ** Notification dispatch and the prompt field *)

(** [notify_user], lines 132-145. *)
Definition notify_user (cfg : Config) (hist : History) (readable : string) : M unit :=
  let* rtn := lift (last_item (rtns hist)) in
  let* cmd := lift (last_item (inps hist)) in
  let* focused := is_app_window_focused in
  if focused then ret tt
  else
    let* w := ask in
    let noti :=
      {| application_name := prompt_formatter w (NOTIFICATION_APP_NAME cfg);
         title := cmd;
         message := (if truthy_int rtn then "Failed" else "Done")
                    +:+ " in " +:+ readable |} in
    send noti.

(** [long_cmd_duration], lines 148-161.  [None] is Python's [None]. *)
Definition long_cmd_duration (cfg : Config) (history : History) : M (option string) :=
  match last (tss history) with
  | None => ret None
  | Some (start_t, end_t) =>
      let interval := (end_t - start_t)%Q in
      if num_gt interval (LONG_DURATION cfg) then
        let readable := secs_to_readable interval in
        (if TRIGGER_NOTIFICATION cfg then notify_user cfg history readable
         else ret tt) ;;
        ret (Some readable)
      else ret None
  end.

(** ** Reading a formatted duration back

    A reader for the strings the formatter writes: a sequence of fields,
    each a run of decimal digits followed by one of the unit letters
    [h], [m], [s].  It is independent of the formatter and serves to say
    which units a string shows and with which values. *)

Definition digit (c : ascii) : option Z :=
  let n := code c in
  if ((48 <=? n) && (n <=? 57))%N then Some (Z.of_N n - 48) else None.

Definition is_unit (c : ascii) : bool :=
  existsb (Ascii.eqb c) ["h"; "m"; "s"]%char.

Fixpoint fields_from (acc : option Z) (s : string) : option (list (Z * ascii)) :=
  match s with
  | EmptyString => match acc with None => Some [] | Some _ => None end
  | String c r =>
      match digit c with
      | Some d => fields_from (Some (10 * default 0 acc + d)) r
      | None =>
          match acc with
          | Some n => if is_unit c then cons (n, c) <$> fields_from None r else None
          | None => None
          end
      end
  end.

Definition fields (s : string) : option (list (Z * ascii)) := fields_from None s.

(** The value shown for unit [u], 0 when the unit is not shown. *)
Definition component (u : ascii) (fs : list (Z * ascii)) : Z :=
  default 0 (fst <$> head (filter (fun f => f.2 = u) fs)).

(** The fields the omission rule prescribes for [n] seconds: hours when
    non-zero, minutes when hours or minutes are non-zero, seconds when
    any of the three is non-zero. *)
Definition prescribed (n : Z) : list (Z * ascii) :=
  let hours := n / 3600 in
  let minutes := n / 60 mod 60 in
  let seconds := n mod 60 in
  (if decide (hours ≠ 0) then [(hours, "h"%char)] else []) ++
  (if decide (hours ≠ 0 ∨ minutes ≠ 0) then [(minutes, "m"%char)] else []) ++
  (if decide (hours ≠ 0 ∨ minutes ≠ 0 ∨ seconds ≠ 0) then [(seconds, "s"%char)] else []).

(** The value of a numeral read digit by digit from the left, starting
    from [a]. *)
Fixpoint uint_value (d : uint) (a : Z) : Z :=
  match d with
  | Nil => a
  | D0 d => uint_value d (10 * a)
  | D1 d => uint_value d (10 * a + 1)
  | D2 d => uint_value d (10 * a + 2)
  | D3 d => uint_value d (10 * a + 3)
  | D4 d => uint_value d (10 * a + 4)
  | D5 d => uint_value d (10 * a + 5)
  | D6 d => uint_value d (10 * a + 6)
  | D7 d => uint_value d (10 * a + 7)
  | D8 d => uint_value d (10 * a + 8)
  | D9 d => uint_value d (10 * a + 9)
  end.

(** ** Frame conditions *)

(** A call that hands nothing to the notification back end. *)
Definition keeps_sent {A} (m : M A) : Prop :=
  forall w s s' r, m w s = (s', r) -> sent s' = sent s.

(** ** Auxiliary predicates and descriptions *)

(** Every character of a string passes a test. *)
Fixpoint every (p : ascii -> bool) (s : string) : bool :=
  match s with
  | EmptyString => true
  | String c r => p c && every p r
  end.

(** A character that [repr] of a [bytes] object copies as it is and that
    does not end a quoted name: printable ASCII other than the two quotes
    and the backslash. *)
Definition plain (c : ascii) : bool :=
  between 32 126 c && negb (Ascii.eqb c "'") && negb (Ascii.eqb c "\")
  && negb (Ascii.eqb c dquote).

(** Lines 113-119 for a resolved application name: ask [lsappinfo] about
    the application, warn on an empty answer, look for the marker. *)
Definition front_query (appname : string) (w : World) (s : State)
  : State * result bool :=
  let s1 := record_spawn ["lsappinfo"; "info"; "-app"; appname] s in
  match check_output w ["lsappinfo"; "info"; "-app"; appname] with
  | Raise e => (s1, Raise e)
  | Ok out =>
      (if truthy_str out then s1
       else record_warning (WarnNotInLsappinfo appname) s1,
       Ok (contains "(in front)" out))
  end.

(** ** Sample hosts and histories *)

Definition bare_env : Env :=
  {| XONTRIB_CD_LONG_DURATION := None;
     XONTRIB_CD_TRIGGER_NOTIFICATION := None;
     XONTRIB_CD_NOTIFICATION_APP_NAME := None;
     TITLE := None;
     XONTRIB_CD_TERM_PROGRAM_MAP := None;
     WINDOWID := None;
     __CFBundleIdentifier := None;
     TERM_PROGRAM := None |}.

Definition with_WINDOWID (v : string) (e : Env) : Env :=
  {| XONTRIB_CD_LONG_DURATION := XONTRIB_CD_LONG_DURATION e;
     XONTRIB_CD_TRIGGER_NOTIFICATION := XONTRIB_CD_TRIGGER_NOTIFICATION e;
     XONTRIB_CD_NOTIFICATION_APP_NAME := XONTRIB_CD_NOTIFICATION_APP_NAME e;
     TITLE := TITLE e;
     XONTRIB_CD_TERM_PROGRAM_MAP := XONTRIB_CD_TERM_PROGRAM_MAP e;
     WINDOWID := Some v;
     __CFBundleIdentifier := __CFBundleIdentifier e;
     TERM_PROGRAM := TERM_PROGRAM e |}.

Definition with_bundle (v : string) (e : Env) : Env :=
  {| XONTRIB_CD_LONG_DURATION := XONTRIB_CD_LONG_DURATION e;
     XONTRIB_CD_TRIGGER_NOTIFICATION := XONTRIB_CD_TRIGGER_NOTIFICATION e;
     XONTRIB_CD_NOTIFICATION_APP_NAME := XONTRIB_CD_NOTIFICATION_APP_NAME e;
     TITLE := TITLE e;
     XONTRIB_CD_TERM_PROGRAM_MAP := XONTRIB_CD_TERM_PROGRAM_MAP e;
     WINDOWID := WINDOWID e;
     __CFBundleIdentifier := Some v;
     TERM_PROGRAM := TERM_PROGRAM e |}.

Definition with_TERM_PROGRAM (v : string) (e : Env) : Env :=
  {| XONTRIB_CD_LONG_DURATION := XONTRIB_CD_LONG_DURATION e;
     XONTRIB_CD_TRIGGER_NOTIFICATION := XONTRIB_CD_TRIGGER_NOTIFICATION e;
     XONTRIB_CD_NOTIFICATION_APP_NAME := XONTRIB_CD_NOTIFICATION_APP_NAME e;
     TITLE := TITLE e;
     XONTRIB_CD_TERM_PROGRAM_MAP := XONTRIB_CD_TERM_PROGRAM_MAP e;
     WINDOWID := WINDOWID e;
     __CFBundleIdentifier := __CFBundleIdentifier e;
     TERM_PROGRAM := Some v |}.

Definition with_TERM_PROGRAM_MAP (v : list (string * string)) (e : Env) : Env :=
  {| XONTRIB_CD_LONG_DURATION := XONTRIB_CD_LONG_DURATION e;
     XONTRIB_CD_TRIGGER_NOTIFICATION := XONTRIB_CD_TRIGGER_NOTIFICATION e;
     XONTRIB_CD_NOTIFICATION_APP_NAME := XONTRIB_CD_NOTIFICATION_APP_NAME e;
     TITLE := TITLE e;
     XONTRIB_CD_TERM_PROGRAM_MAP := Some v;
     WINDOWID := WINDOWID e;
     __CFBundleIdentifier := __CFBundleIdentifier e;
     TERM_PROGRAM := TERM_PROGRAM e |}.

Definition newline : string := String (ascii_of_N 10) "".

(** Linux, the terminal is window 123, [xdotool] reports [active]. *)
Definition linux_host (active : string) (backend : Notification -> result unit) : World :=
  {| platform_system := "Linux";
     env := with_WINDOWID "123" bare_env;
     check_output := fun args =>
       if decide (args = ["xdotool"; "getactivewindow"])
       then Ok (active +:+ newline)
       else Raise FileNotFoundError;
     prompt_formatter := fun t => t;
     notify_send := backend |}.

(** Darwin with a bundle identifier; [tool] answers [lsappinfo]. *)
Definition darwin_host (tool : list string -> result string) : World :=
  {| platform_system := "Darwin";
     env := with_bundle "com.apple.Terminal" bare_env;
     check_output := tool;
     prompt_formatter := fun t => t;
     notify_send := fun _ => Ok tt |}.

(** An [lsappinfo] that knows one running application, Terminal, and
    reports it in front. *)
Definition quoted (name : string) : string :=
  String dquote (name +:+ String dquote "").

Definition lsappinfo (args : list string) : result string :=
  match args with
  | [_; verb; arg] =>
      if decide (verb = "find") then
        if decide (arg = "bundleID=com.apple.Terminal")
        then Ok ("ASN:0x0-0x4c04c-" +:+ quoted "Terminal" +:+ ":" +:+ newline)
        else Ok ""
      else Raise (CalledProcessError 1)
  | [_; verb; _; name] =>
      if decide (verb = "info") then
        if decide (name = "Terminal")
        then Ok (quoted "Terminal" +:+ " ASN:0x0-0x4c04c: (in front)" +:+ newline)
        else Ok ""
      else Raise (CalledProcessError 1)
  | _ => Raise (CalledProcessError 1)
  end.

(** Darwin without a bundle identifier, in terminal program [term]. *)
Definition darwin_term_host (term : string) : World :=
  {| platform_system := "Darwin";
     env := with_TERM_PROGRAM term bare_env;
     check_output := lsappinfo;
     prompt_formatter := fun t => t;
     notify_send := fun _ => Ok tt |}.

(** A system that is neither Linux nor Darwin. *)
Definition freebsd_host : World :=
  {| platform_system := "FreeBSD";
     env := bare_env;
     check_output := fun _ => Raise FileNotFoundError;
     prompt_formatter := fun t => t;
     notify_send := fun _ => Ok tt |}.

(** One command, [sleep 12], run from second 0 to second 12. *)
Definition slept (rtn : Z) : History :=
  {| tss := [(0, 12)%Q]; rtns := [rtn]; inps := ["sleep 12"] |}.


(** * Properties *)

(** ** The model on sample runs *)

Example bytes_repr_sample :
  bytes_repr ("ASN:0x0-0x4c04c-" +:+ quoted "Terminal" +:+ ":")
  = "b'ASN:0x0-0x4c04c-" +:+ quoted "Terminal" +:+ ":'"
  /\ bytes_repr "it's" = String "b" (quoted "it's")
  /\ bytes_repr ("a" +:+ newline) = "b'a\n'".
Proof. repeat split; vm_compute; reflexivity. Qed.

Example negative_and_fractional_seconds :
  secs_to_readable (-1) = "-1h59m59s" /\
  secs_to_readable (5 # 2) = "2s" /\
  secs_to_readable (7 # 2) = "4s" /\
  secs_to_readable (1 # 2) = "".
Proof. repeat split; vm_compute; reflexivity. Qed.

(** Threshold 5, a 12-second command, window not focused: the prompt
    shows ["12s"] and one notification goes out, [Done] or [Failed] by
    the exit code. *)
Example unfocused_done :
  long_cmd_duration (load_config bare_env) (slept 0)
    (linux_host "456" (fun _ => Ok tt)) init_state
  = ({| log := []; spawned := [["xdotool"; "getactivewindow"]];
        sent := [{| application_name := "xonsh"; title := "sleep 12";
                    message := "Done in 12s" |}];
        app_name_cache := ∅ |},
     Ok (Some "12s")).
Proof. vm_compute. reflexivity. Qed.

Example unfocused_failed :
  sent (fst (long_cmd_duration (load_config bare_env) (slept 1)
               (linux_host "456" (fun _ => Ok tt)) init_state))
  = [{| application_name := "xonsh"; title := "sleep 12";
        message := "Failed in 12s" |}].
Proof. vm_compute. reflexivity. Qed.

(** Window focused: the prompt still shows ["12s"], nothing is sent. *)
Example focused_silent :
  long_cmd_duration (load_config bare_env) (slept 0)
    (linux_host "123" (fun _ => Ok tt)) init_state
  = (record_spawn ["xdotool"; "getactivewindow"] init_state, Ok (Some "12s")).
Proof. vm_compute. reflexivity. Qed.

(** Darwin: the name comes from the bundle identifier, else from
    [TERM_PROGRAM] through the table, else the probe warns and gives up. *)
Example darwin_by_bundle :
  is_app_window_focused (darwin_host lsappinfo) init_state
  = ({| log := [];
        spawned := [["lsappinfo"; "find"; "bundleID=com.apple.Terminal"];
                    ["lsappinfo"; "info"; "-app"; "Terminal"]];
        sent := []; app_name_cache := ∅ |},
     Ok true).
Proof. vm_compute. reflexivity. Qed.

Example darwin_by_term_program :
  is_app_window_focused
    {| platform_system := "Darwin";
       env := with_TERM_PROGRAM "Apple_Terminal" bare_env;
       check_output := lsappinfo;
       prompt_formatter := fun t => t;
       notify_send := fun _ => Ok tt |} init_state
  = ({| log := [];
        spawned := [["lsappinfo"; "info"; "-app"; "Terminal"]];
        sent := [];
        app_name_cache := {[ "Apple_Terminal" := "Terminal" ]} |},
     Ok true).
Proof. vm_compute. reflexivity. Qed.

Example darwin_unresolved :
  is_app_window_focused
    {| platform_system := "Darwin";
       env := bare_env;
       check_output := lsappinfo;
       prompt_formatter := fun t => t;
       notify_send := fun _ => Ok tt |} init_state
  = (record_warning (WarnAppNotFound None (lower_keys defaults)) init_state,
     Ok false).
Proof. vm_compute. reflexivity. Qed.

(** Darwin: a bundle identifier that [lsappinfo find] does not know
    gives an empty answer, and indexing the split text raises. *)
Example darwin_unknown_bundle :
  is_app_window_focused
    {| platform_system := "Darwin";
       env := with_bundle "org.example.gone" bare_env;
       check_output := lsappinfo;
       prompt_formatter := fun t => t;
       notify_send := fun _ => Ok tt |} init_state
  = (record_spawn ["lsappinfo"; "find"; "bundleID=org.example.gone"] init_state,
     Raise IndexError).
Proof. vm_compute. reflexivity. Qed.

(** ** Decimal numerals *)

Lemma uint_value_of_lu d a :
  uint_value d a =
  Z.of_N (Unsigned.of_lu (Decimal.rev d)) + a * 10 ^ Z.of_N (Unsigned.usize d).
Proof.
  revert a. induction d; intros a; simpl uint_value; simpl Unsigned.usize;
    [ simpl; lia | .. ];
    rewrite IHd; unfold Decimal.rev; simpl revapp;
    rewrite (Unsigned.of_lu_revapp d (_ Nil)); fold (Decimal.rev d);
    rewrite N2Z.inj_succ, Z.pow_succ_r by lia;
    rewrite N2Z.inj_add, N2Z.inj_mul, N2Z.inj_pow; simpl Unsigned.of_lu;
    simpl Z.of_N; lia.
Qed.

Lemma uint_value_to_uint p : uint_value (Pos.to_uint p) 0 = Z.pos p.
Proof.
  rewrite uint_value_of_lu, <- Unsigned.of_uint_alt, Unsigned.of_to. simpl. lia.
Qed.

(** [str n] for [n >= 0] is a non-empty numeral of value [n]. *)
Lemma str_nonneg n :
  0 <= n ->
  exists d, d <> Nil /\ str n = NilEmpty.string_of_uint d /\ uint_value d 0 = n.
Proof.
  intros Hn. destruct n as [|p|p]; [ | | lia ].
  - exists (D0 Nil). repeat split; discriminate.
  - exists (Pos.to_uint p). split; [ apply Unsigned.to_uint_nonnil | ].
    split; [ | apply uint_value_to_uint ].
    unfold str. simpl.
    pose proof (Unsigned.to_uint_nonnil p) as Hnil.
    destruct (Pos.to_uint p); [ congruence | reflexivity .. ].
Qed.

(** Reading a numeral followed by a unit yields one field. *)
Lemma fields_from_numeral d a u rest :
  is_unit u = true ->
  fields_from (Some a) (NilEmpty.string_of_uint d +:+ String u rest)
  = cons (uint_value d a, u) <$> fields_from None rest.
Proof.
  intros Hu. revert a.
  assert (Hd : digit u = None).
  { unfold is_unit in Hu. simpl in Hu.
    repeat (apply orb_prop in Hu as [Hu | Hu]); try discriminate;
      apply Ascii.eqb_eq in Hu; subst u; reflexivity. }
  induction d; intros a; simpl; [ rewrite Hd, Hu; reflexivity | .. ];
    rewrite IHd; do 3 f_equal;
    match goal with
    | |- uint_value _ ?x = uint_value _ ?y => replace x with y by lia
    end; reflexivity.
Qed.

Lemma fields_str n u rest :
  0 <= n -> is_unit u = true ->
  fields (str n +:+ String u rest) = cons (n, u) <$> fields rest.
Proof.
  intros Hn Hu. destruct (str_nonneg n Hn) as (d & Hnil & -> & Hv).
  unfold fields. rewrite <- Hv.
  destruct d; [ congruence | .. ]; simpl; apply (fields_from_numeral _ _ _ _ Hu).
Qed.

(** ** The formatter's output, read back *)

Lemma hms_arith n :
  n mod 3600 / 60 = n / 60 mod 60 /\ (n mod 3600) mod 60 = n mod 60.
Proof. Z.to_euclidean_division_equations; lia. Qed.

Lemma append_cons x (a b : string) : String x a +:+ b = String x (a +:+ b).
Proof. reflexivity. Qed.

Lemma append_nil (b : string) : "" +:+ b = b.
Proof. reflexivity. Qed.

Lemma append_assoc (a b c : string) : (a +:+ b) +:+ c = a +:+ (b +:+ c).
Proof.
  induction a as [|x a IH]; [ reflexivity | ].
  rewrite !append_cons. now rewrite IH.
Qed.

Lemma fields_secs_to_readable q :
  0 <= Py.round q ->
  fields (secs_to_readable q) = Some (prescribed (Py.round q)).
Proof.
  intros Hn. unfold secs_to_readable, prescribed, divmod.
  destruct (hms_arith (Py.round q)) as [-> ->].
  set (n := Py.round q) in *.
  assert (Hh : 0 <= n / 3600) by (apply Z.div_pos; lia).
  assert (Hm : 0 <= n / 60 mod 60 < 60) by (apply Z.mod_pos_bound; lia).
  assert (Hs : 0 <= n mod 60 < 60) by (apply Z.mod_pos_bound; lia).
  unfold truthy_int.
  destruct (Z.eqb_spec (n / 3600) 0) as [E1|E1],
           (Z.eqb_spec (n / 60 mod 60) 0) as [E2|E2],
           (Z.eqb_spec (n mod 60) 0) as [E3|E3]; simpl;
    repeat case_decide; try tauto;
    rewrite ?append_assoc, ?append_cons, ?append_nil.
  all: repeat (rewrite fields_str by (lia || reflexivity)); reflexivity.
Qed.

(** ** Rounding *)

Lemma round_inject_Z (z : Z) : Py.round (inject_Z z) = z.
Proof.
  unfold Py.round. rewrite Qfloor_Z.
  destruct (Qcompare_spec (inject_Z z - inject_Z z) (1 # 2)) as [E|L|G];
    [ exfalso; lra | reflexivity | exfalso; lra ].
Qed.

Lemma round_nearest (q : Q) : (Qabs (q - inject_Z (Py.round q)) <= 1 # 2)%Q.
Proof.
  pose proof (Qfloor_le q) as Hlo. pose proof (Qlt_floor q) as Hhi.
  rewrite inject_Z_plus in Hhi.
  apply Qabs_Qle_condition. unfold Py.round.
  destruct (Qcompare_spec (q - inject_Z (Qfloor q)) (1 # 2)) as [E|L|G].
  - destruct (Z.even (Qfloor q)); rewrite ?inject_Z_plus;
      change (inject_Z 1) with 1%Q in *; split; lra.
  - split; lra.
  - rewrite inject_Z_plus; change (inject_Z 1) with 1%Q in *; split; lra.
Qed.

Lemma secs_to_readable_round (q : Q) :
  secs_to_readable q = secs_to_readable (inject_Z (Py.round q)).
Proof. unfold secs_to_readable. now rewrite round_inject_Z. Qed.

(** ** The duration formatter: claims C2, C6, C9 *)

(** C2 (as amended).  On the test vectors the formatter gives
    [format(0) = ""], [format(100) = "1m40s"], [format(3661) = "1h1m1s"],
    [format(59) = "59s"] and [format(3600) = "1h0m0s"]: once hours are
    shown, minutes and seconds are shown too, zero or not. *)
Theorem C2_test_vectors :
  secs_to_readable 0 = "" /\
  secs_to_readable 100 = "1m40s" /\
  secs_to_readable 3661 = "1h1m1s" /\
  secs_to_readable 59 = "59s" /\
  secs_to_readable 3600 = "1h0m0s".
Proof. repeat split; vm_compute; reflexivity. Qed.

(** C2 as stated fails: the five vectors of the claim do not all hold,
    because 3600 seconds are written ["1h0m0s"], not ["1h0m"]. *)
Lemma C2_vector_3600_differs :
  secs_to_readable 3600 = "1h0m0s" /\
  ~ (secs_to_readable 0 = "" /\
     secs_to_readable 100 = "1m40s" /\
     secs_to_readable 3661 = "1h1m1s" /\
     secs_to_readable 59 = "59s" /\
     secs_to_readable 3600 = "1h0m").
Proof.
  split; [ vm_compute; reflexivity | ].
  intros (_ & _ & _ & _ & H). vm_compute in H. discriminate H.
Qed.

(** C6.  For a non-negative integer [s], with [hours = s / 3600],
    [minutes = s / 60 mod 60] and [seconds = s mod 60]: the output reads
    back as a sequence of fields in which the hours field is present
    exactly when [hours] is non-zero, the minutes field exactly when
    hours or minutes are non-zero, the seconds field exactly when any of
    the three is non-zero, each with its value; so a field showing 0 is
    never the first one.  The input is first rounded to the nearest
    integer (a tie going to the even one), which leaves an integer
    unchanged. *)
Theorem C6_unit_omission (s : Z) :
  0 <= s ->
  let out := secs_to_readable (inject_Z s) in
  let hours := s / 3600 in
  let minutes := s / 60 mod 60 in
  let seconds := s mod 60 in
  (exists fs,
     fields out = Some fs /\
     (forall v, (v, "h"%char) ∈ fs <-> v = hours /\ hours <> 0) /\
     (forall v, (v, "m"%char) ∈ fs <-> v = minutes /\ (hours <> 0 \/ minutes <> 0)) /\
     (forall v, (v, "s"%char) ∈ fs <->
                v = seconds /\ (hours <> 0 \/ minutes <> 0 \/ seconds <> 0)) /\
     (forall v u, (v, u) ∈ fs -> is_unit u = true) /\
     (forall v u, head fs = Some (v, u) -> v <> 0)) /\
  Py.round (inject_Z s) = s /\
  (forall q : Q,
     secs_to_readable q = secs_to_readable (inject_Z (Py.round q)) /\
     (Qabs (q - inject_Z (Py.round q)) <= 1 # 2)%Q).
Proof.
  intros Hs out hours minutes seconds.
  split; [ | split; [ apply round_inject_Z | ] ].
  - exists (prescribed s). split.
    { unfold out. rewrite fields_secs_to_readable; rewrite round_inject_Z; auto. }
    unfold prescribed. fold hours minutes seconds.
    repeat case_decide; simpl;
      repeat split; intros;
      repeat match goal with
             | H : _ ∈ _ |- _ => apply list_elem_of_In in H; simpl in H
             | |- _ ∈ _ => apply list_elem_of_In; simpl
             end;
      try (intuition (try congruence; try lia); fail);
      try (intuition (simplify_eq; try reflexivity; try tauto; try lia); fail).
  - intros q. split; [ apply secs_to_readable_round | apply round_nearest ].
Qed.

Lemma C6_unit_omission_witness :
  0 <= 3600 /\
  exists fs,
    fields (secs_to_readable (inject_Z 3600)) = Some fs /\
    (forall v, (v, "m"%char) ∈ fs <-> v = 0 /\ (1 <> 0 \/ 0 <> 0)).
Proof.
  split; [ lia | ].
  destruct (C6_unit_omission 3600 ltac:(lia)) as [(fs & Hf & _ & Hm & _) _].
  exists fs. split; [ exact Hf | exact Hm ].
Defined.

(** C9.  For a non-negative integer [s], the output reads back as fields
    whose hour, minute and second values (0 for a unit not shown) satisfy
    [hours * 3600 + minutes * 60 + seconds = round(s)], with minutes and
    seconds below 60. *)
Theorem C9_round_trip (s : Z) :
  0 <= s ->
  exists fs,
    fields (secs_to_readable (inject_Z s)) = Some fs /\
    component "h" fs * 3600 + component "m" fs * 60 + component "s" fs
      = Py.round (inject_Z s) /\
    0 <= component "m" fs < 60 /\
    0 <= component "s" fs < 60.
Proof.
  intros Hs. exists (prescribed s). split.
  { rewrite fields_secs_to_readable; rewrite round_inject_Z; auto. }
  rewrite round_inject_Z. unfold prescribed.
  repeat case_decide; unfold component; simpl;
    Z.to_euclidean_division_equations; lia.
Qed.

Lemma C9_round_trip_witness :
  0 <= 3661 /\
  exists fs,
    fields (secs_to_readable (inject_Z 3661)) = Some fs /\
    component "h" fs * 3600 + component "m" fs * 60 + component "s" fs
      = Py.round (inject_Z 3661) /\
    0 <= component "m" fs < 60 /\
    0 <= component "s" fs < 60.
Proof. split; [ lia | apply (C9_round_trip 3661); lia ]. Defined.

(** ** The monad, step by step *)

Lemma bind_ok {A B} (m : M A) (k : A -> M B) w s s' a :
  m w s = (s', Ok a) -> bind m k w s = k a w s'.
Proof. unfold bind. now intros ->. Qed.

Lemma bind_raise {A B} (m : M A) (k : A -> M B) w s s' e :
  m w s = (s', Raise e) -> bind m k w s = (s', Raise e).
Proof. unfold bind. now intros ->. Qed.

Lemma last_item_ok {A} (l : list A) x : last l = Some x -> last_item l = Ok x.
Proof. unfold last_item. now intros ->. Qed.

Lemma num_gt_true x y : num_gt x y = true <-> (y < x)%Q.
Proof.
  unfold num_gt. rewrite Qgt_alt.
  destruct (x ?= y)%Q; split; congruence.
Qed.

Lemma num_gt_false x y : num_gt x y = false <-> (x <= y)%Q.
Proof.
  unfold num_gt. rewrite Qle_alt.
  destruct (x ?= y)%Q; split; congruence.
Qed.

(** ** The threshold decision: claims C3, C7, C10 *)

(** C7.  With no timestamp in the history, [long_cmd_duration] returns
    [None]: it raises nothing, formats no duration, logs nothing, runs no
    command and dispatches no notification. *)
Theorem C7_empty_history cfg h w s :
  tss h = [] ->
  long_cmd_duration cfg h w s = (s, Ok None).
Proof. intros H. unfold long_cmd_duration. now rewrite H. Qed.

Lemma C7_empty_history_witness :
  tss {| tss := []; rtns := []; inps := [] |} = [] /\
  long_cmd_duration (load_config bare_env) {| tss := []; rtns := []; inps := [] |}
    freebsd_host init_state = (init_state, Ok None).
Proof. split; [ reflexivity | now apply C7_empty_history ]. Defined.

(** [notify_user] reads the last exit code and the last input before it
    does anything else. *)
Lemma notify_user_no_command cfg h readable w s :
  rtns h = [] \/ inps h = [] ->
  notify_user cfg h readable w s = (s, Raise IndexError).
Proof.
  intros Hempty. unfold notify_user, bind, lift, last_item.
  destruct Hempty as [E|E]; rewrite E; simpl; [ reflexivity | ].
  now destruct (last (rtns h)).
Qed.

(** C10.  When the last interval exceeds the threshold and notifications
    are enabled but the list of exit codes or the list of inputs is
    empty, [long_cmd_duration] raises [IndexError]; the state is
    untouched, so the focus probe has not run yet. *)
Theorem C10_index_error cfg h w s start_t end_t :
  last (tss h) = Some (start_t, end_t) ->
  (LONG_DURATION cfg < end_t - start_t)%Q ->
  TRIGGER_NOTIFICATION cfg = true ->
  rtns h = [] \/ inps h = [] ->
  long_cmd_duration cfg h w s = (s, Raise IndexError).
Proof.
  intros Hts Hlong Hon Hempty. unfold long_cmd_duration.
  rewrite Hts. apply num_gt_true in Hlong. rewrite Hlong, Hon.
  apply bind_raise. now apply notify_user_no_command.
Qed.

Lemma C10_index_error_witness :
  last (tss {| tss := [(0, 12)%Q]; rtns := []; inps := [] |}) = Some (0, 12)%Q /\
  (LONG_DURATION (load_config bare_env) < 12 - 0)%Q /\
  TRIGGER_NOTIFICATION (load_config bare_env) = true /\
  long_cmd_duration (load_config bare_env)
    {| tss := [(0, 12)%Q]; rtns := []; inps := [] |}
    (linux_host "456" (fun _ => Ok tt)) init_state
  = (init_state, Raise IndexError).
Proof.
  split; [ reflexivity | ]. split; [ reflexivity | ]. split; [ reflexivity | ].
  apply (C10_index_error _ _ _ _ 0%Q 12%Q);
    [ reflexivity | reflexivity | reflexivity | left; reflexivity ].
Defined.

(** C3 (as amended).  For the last pair of timestamps, with
    [elapsed = end - start] compared strictly with the threshold (5 when
    [XONTRIB_CD_LONG_DURATION] is unset): if [elapsed <= threshold] the
    result is [None] and nothing else happens; if [elapsed > threshold]
    and notifications are disabled the result is the formatted duration;
    if [elapsed > threshold] and notifications are enabled,
    [notify_user] is called with the formatted duration, and the result
    is the formatted duration when that call returns, its exception
    otherwise. *)
Theorem C3_threshold_decision cfg h w s start_t end_t :
  last (tss h) = Some (start_t, end_t) ->
  let elapsed := (end_t - start_t)%Q in
  let readable := secs_to_readable elapsed in
  ((elapsed <= LONG_DURATION cfg)%Q ->
     long_cmd_duration cfg h w s = (s, Ok None)) /\
  ((LONG_DURATION cfg < elapsed)%Q ->
     (TRIGGER_NOTIFICATION cfg = false ->
        long_cmd_duration cfg h w s = (s, Ok (Some readable))) /\
     (TRIGGER_NOTIFICATION cfg = true ->
        forall s' r,
          notify_user cfg h readable w s = (s', r) ->
          long_cmd_duration cfg h w s
          = (s', match r with
                 | Ok _ => Ok (Some readable)
                 | Raise e => Raise e
                 end))) /\
  (forall e, XONTRIB_CD_LONG_DURATION e = None ->
             LONG_DURATION (load_config e) = 5%Q).
Proof.
  intros Hts elapsed readable. unfold long_cmd_duration. rewrite Hts.
  fold elapsed. fold readable.
  split; [ | split; [ intros Hgt; apply num_gt_true in Hgt; split | ] ].
  - intros Hle. apply num_gt_false in Hle. now rewrite Hle.
  - intros Hoff. now rewrite Hgt, Hoff.
  - intros Hon s' r Hn. rewrite Hgt, Hon.
    unfold bind. rewrite Hn. now destruct r.
  - intros e He. unfold load_config. simpl. now rewrite He.
Qed.

Lemma C3_threshold_decision_witness :
  last (tss (slept 0)) = Some (0, 12)%Q /\
  long_cmd_duration (load_config bare_env) (slept 0)
    (linux_host "456" (fun _ => Ok tt)) init_state
  = (record_sent {| application_name := "xonsh"; title := "sleep 12";
                    message := "Done in 12s" |}
       (record_spawn ["xdotool"; "getactivewindow"] init_state),
     Ok (Some "12s")).
Proof.
  split; [ reflexivity | ].
  pose proof (C3_threshold_decision (load_config bare_env) (slept 0)
                (linux_host "456" (fun _ => Ok tt)) init_state 0%Q 12%Q
                eq_refl) as (_ & Hgt & _).
  destruct (Hgt eq_refl) as [_ Hon].
  exact (Hon eq_refl _ _ eq_refl).
Defined.

(** C3 as stated fails: with the default threshold and notifications
    enabled, a 12-second command on a Linux host whose notification back
    end raises (no [notify-send] binary) makes [long_cmd_duration] raise
    instead of returning ["12s"]. *)
Lemma C3_dispatch_failure_propagates :
  (LONG_DURATION (load_config bare_env) < 12 - 0)%Q /\
  snd (long_cmd_duration (load_config bare_env) (slept 0)
         (linux_host "456" (fun _ => Raise (OtherError "BinaryNotFound")))
         init_state)
  = Raise (OtherError "BinaryNotFound") /\
  snd (long_cmd_duration (load_config bare_env) (slept 0)
         (linux_host "456" (fun _ => Raise (OtherError "BinaryNotFound")))
         init_state)
  <> Ok (Some (secs_to_readable (12 - 0))).
Proof.
  split; [ reflexivity | ].
  split; [ vm_compute; reflexivity | vm_compute; discriminate ].
Qed.

(** ** What the probe leaves alone *)

Lemma keeps_sent_ret {A} (a : A) : keeps_sent (ret a).
Proof. intros w s s' r [= <- _]. reflexivity. Qed.

Lemma keeps_sent_lift {A} (x : result A) : keeps_sent (lift x).
Proof. intros w s s' r [= <- _]. reflexivity. Qed.

Lemma keeps_sent_ask : keeps_sent ask.
Proof. intros w s s' r [= <- _]. reflexivity. Qed.

Lemma keeps_sent_warn x : keeps_sent (_warn x).
Proof. intros w s s' r [= <- _]. reflexivity. Qed.

Lemma keeps_sent_check_output args : keeps_sent (sp_check_output args).
Proof. intros w s s' r [= <- _]. reflexivity. Qed.

Lemma keeps_sent_app_name t : keeps_sent (_darwin_get_app_name t).
Proof.
  intros w s s' r. unfold _darwin_get_app_name.
  destruct (app_name_cache s !! t); intros [= <- _]; reflexivity.
Qed.

Lemma keeps_sent_bind {A B} (m : M A) (k : A -> M B) :
  keeps_sent m -> (forall a, keeps_sent (k a)) -> keeps_sent (bind m k).
Proof.
  intros Hm Hk w s s' r. unfold bind.
  destruct (m w s) as [s1 [a|e]] eqn:E.
  - intros Hr. rewrite (Hk _ _ _ _ _ Hr). eapply Hm, E.
  - intros [= <- _]. eapply Hm, E.
Qed.

Lemma keeps_sent_try {A} (m : M A) (h : exn -> M A) :
  keeps_sent m -> (forall e, keeps_sent (h e)) -> keeps_sent (try_except m h).
Proof.
  intros Hm Hh w s s' r. unfold try_except.
  destruct (m w s) as [s1 [a|e]] eqn:E.
  - intros [= <- _]. eapply Hm, E.
  - intros Hr. rewrite (Hh _ _ _ _ _ Hr). eapply Hm, E.
Qed.

Lemma keeps_sent_if {A} (b : bool) (m1 m2 : M A) :
  keeps_sent m1 -> keeps_sent m2 -> keeps_sent (if b then m1 else m2).
Proof. now destruct b. Qed.

Create HintDb effects.
#[local] Hint Resolve keeps_sent_ret keeps_sent_lift keeps_sent_ask
  keeps_sent_warn keeps_sent_check_output keeps_sent_app_name
  keeps_sent_bind keeps_sent_try keeps_sent_if : effects.

Lemma keeps_sent_xdotool : keeps_sent _xdotool_window_id.
Proof. unfold _xdotool_window_id. auto 10 with effects. Qed.

Lemma keeps_sent_linux : keeps_sent _linux_is_app_window_focused.
Proof.
  unfold _linux_is_app_window_focused.
  pose proof keeps_sent_xdotool. auto 10 with effects.
Qed.

Lemma keeps_sent_darwin : keeps_sent _darwin_is_app_window_focused.
Proof. unfold _darwin_is_app_window_focused. auto 20 with effects. Qed.

Lemma keeps_sent_probe : keeps_sent is_app_window_focused.
Proof.
  unfold is_app_window_focused.
  pose proof keeps_sent_linux. pose proof keeps_sent_darwin.
  auto 10 with effects.
Qed.

(** ** The window-focus probe: claims C1, C8 *)

(** The Linux query catches what [xdotool] or the decoding raises. *)
Lemma xdotool_window_id_returns w s :
  exists s' o, _xdotool_window_id w s = (s', Ok o).
Proof.
  unfold _xdotool_window_id, try_except, bind, sp_check_output, lift, ret, _warn.
  destruct (check_output w _) as [out|e]; [ | eauto ].
  destruct (decode out) as [txt|e]; eauto.
Qed.

Lemma linux_probe_returns w s :
  exists s' b, _linux_is_app_window_focused w s = (s', Ok b).
Proof.
  unfold _linux_is_app_window_focused, bind, ask, ret, _warn.
  destruct (negb (truthy_opt (WINDOWID (env w)))); [ eauto | ].
  destruct (xdotool_window_id_returns w s) as (s' & o & ->). eauto.
Qed.

Lemma linux_probe_tool_failure w s e :
  platform_system w = "Linux" ->
  truthy_opt (WINDOWID (env w)) = true ->
  check_output w ["xdotool"; "getactivewindow"] = Raise e ->
  is_app_window_focused w s
  = (record_warning (WarnXdotool e)
       (record_spawn ["xdotool"; "getactivewindow"] s), Ok false).
Proof.
  intros Hsys Hwin Hout.
  unfold is_app_window_focused, bind, ask, is_darwin_system, is_linux_system,
    is_system. rewrite Hsys. simpl.
  unfold _linux_is_app_window_focused, bind, ask. rewrite Hwin. simpl.
  unfold _xdotool_window_id, try_except, bind, sp_check_output.
  rewrite Hout. simpl. unfold ret. do 2 f_equal.
  apply bool_decide_eq_false. destruct (WINDOWID (env w)); discriminate.
Qed.

(** On Darwin the first [lsappinfo] call is not guarded. *)
Lemma darwin_probe_tool_failure w s e :
  platform_system w = "Darwin" ->
  truthy_opt (__CFBundleIdentifier (env w)) = true ->
  check_output w ["lsappinfo"; "find";
                  "bundleID=" +:+ default "" (__CFBundleIdentifier (env w))]
  = Raise e ->
  is_app_window_focused w s
  = (record_spawn ["lsappinfo"; "find";
                   "bundleID=" +:+ default "" (__CFBundleIdentifier (env w))] s,
     Raise e).
Proof.
  intros Hsys Hb Hout.
  unfold is_app_window_focused, bind, ask, is_darwin_system, is_system.
  rewrite Hsys. simpl.
  unfold _darwin_is_app_window_focused, bind, ask. rewrite Hb.
  unfold sp_check_output. now rewrite Hout.
Qed.

(** C1 at its failing input.  On Darwin, with [__CFBundleIdentifier] set
    and [lsappinfo] exiting with a non-zero status, the exception of
    [check_output] leaves [is_app_window_focused]: no warning is logged
    and no [False] is returned.  The same failure of [xdotool] on Linux
    is caught, logged and turned into [False]. *)
Theorem C1_darwin_exception_escapes :
  is_app_window_focused
    (darwin_host (fun _ => Raise (CalledProcessError 1))) init_state
  = (record_spawn ["lsappinfo"; "find"; "bundleID=com.apple.Terminal"] init_state,
     Raise (CalledProcessError 1)) /\
  is_app_window_focused
    {| platform_system := "Linux";
       env := with_WINDOWID "123" bare_env;
       check_output := fun _ => Raise (CalledProcessError 1);
       prompt_formatter := fun t => t;
       notify_send := fun _ => Ok tt |} init_state
  = (record_warning (WarnXdotool (CalledProcessError 1))
       (record_spawn ["xdotool"; "getactivewindow"] init_state),
     Ok false).
Proof.
  split.
  - now apply darwin_probe_tool_failure.
  - now apply linux_probe_tool_failure.
Qed.

Lemma probe_other_os w s :
  platform_system w <> "Linux" ->
  platform_system w <> "Darwin" ->
  is_app_window_focused w s = (s, Ok false).
Proof.
  intros Hl Hd.
  unfold is_app_window_focused, bind, ask, is_darwin_system, is_linux_system,
    is_system.
  now rewrite !bool_decide_eq_false_2.
Qed.

(** ** Notification dispatch: claims C5, C8 *)







(** ** Terminal program names: claim C4 *)

Lemma lower_keys_snoc items kv :
  lower_keys (items ++ [kv]) = <[lower kv.1 := kv.2]> (lower_keys items).
Proof. unfold lower_keys. now rewrite foldl_app. Qed.

(** A key of the table is bound to the value of the last entry whose
    lowered key it is. *)
Lemma lower_keys_lookup items k :
  lower_keys items !! k
  = snd <$> last (filter (fun kv => lower kv.1 = k) items).
Proof.
  induction items as [|kv items IH] using rev_ind; [ reflexivity | ].
  rewrite lower_keys_snoc, filter_app, lookup_insert.
  rewrite filter_cons, filter_nil.
  case_decide as E.
  - now rewrite last_snoc.
  - now rewrite app_nil_r.
Qed.




(** * Further properties of the module *)

(** ** The formatter beyond the claims *)

Lemma append_empty (a b : string) : a +:+ b = "" -> a = "" /\ b = "".
Proof.
  destruct a; [ intros H; split; [ reflexivity | exact H ] | discriminate ].
Qed.

Lemma prescribed_components n :
  0 <= n ->
  component "h" (prescribed n) * 3600 + component "m" (prescribed n) * 60
  + component "s" (prescribed n) = n.
Proof.
  intros Hn. unfold prescribed.
  repeat case_decide; unfold component; simpl;
    Z.to_euclidean_division_equations; lia.
Qed.

(** Rounding never goes below the floor, and anything above one half
    rounds to at least 1. *)
Lemma round_ge_floor q : Qfloor q <= Py.round q.
Proof.
  unfold Py.round.
  destruct (q - inject_Z (Qfloor q) ?= 1 # 2)%Q; [ | lia | lia ].
  destruct (Z.even (Qfloor q)); lia.
Qed.

Lemma round_above_half q : (1 # 2 < q)%Q -> 1 <= Py.round q.
Proof.
  intros Hq. pose proof (round_ge_floor q) as Hfl.
  assert (H0 : 0 <= Qfloor q).
  { rewrite <- (Qfloor_Z 0). apply Qfloor_resp_le.
    change (inject_Z 0) with 0%Q. lra. }
  destruct (Z.eq_dec (Qfloor q) 0) as [E|E]; [ | lia ].
  unfold Py.round. rewrite E. change (inject_Z 0) with 0%Q.
  destruct (Qcompare_spec (q - 0) (1 # 2)) as [C|C|C]; [ lra | lra | lia ].
Qed.

Lemma secs_to_readable_shown (q : Q) :
  Py.round q <> 0 -> secs_to_readable q <> "".
Proof.
  unfold secs_to_readable, divmod. set (n := Py.round q). intros Hn Hout.
  destruct (truthy_int (n / 3600) || truthy_int (n mod 3600 / 60)
            || truthy_int ((n mod 3600) mod 60)) eqn:Hany.
  - apply append_empty in Hout as [_ Hout].
    apply append_empty in Hout as [_ Hout]. discriminate Hout.
  - unfold truthy_int in Hany.
    apply orb_false_iff in Hany as [Hany H3].
    apply orb_false_iff in Hany as [H1 H2].
    apply negb_false_iff, Z.eqb_eq in H1, H2, H3.
    revert H1 H2 H3 Hn. Z.to_euclidean_division_equations. lia.
Qed.

(** X1.  The empty string is the output for zero seconds and for nothing
    else, whatever the sign of the input. *)
Theorem secs_to_readable_empty_iff (q : Q) :
  secs_to_readable q = "" <-> Py.round q = 0.
Proof.
  split.
  - intros Hout. destruct (Z.eq_dec (Py.round q) 0) as [E|E]; [ exact E | ].
    now destruct (secs_to_readable_shown q E).
  - intros E. unfold secs_to_readable. rewrite E. reflexivity.
Qed.

(** X2.  Two non-negative durations are written alike only when they round
    to the same number of seconds. *)
Theorem secs_to_readable_injective (q1 q2 : Q) :
  0 <= Py.round q1 -> 0 <= Py.round q2 ->
  secs_to_readable q1 = secs_to_readable q2 ->
  Py.round q1 = Py.round q2.
Proof.
  intros H1 H2 Heq.
  pose proof (fields_secs_to_readable q1 H1) as F1.
  pose proof (fields_secs_to_readable q2 H2) as F2.
  rewrite Heq, F2 in F1. injection F1 as F1.
  rewrite <- (prescribed_components _ H1), <- (prescribed_components _ H2).
  now rewrite F1.
Qed.

Lemma secs_to_readable_injective_witness :
  0 <= Py.round 3600 /\ 0 <= Py.round (7199 # 2) /\
  secs_to_readable 3600 = secs_to_readable (7199 # 2) /\
  Py.round 3600 = Py.round (7199 # 2).
Proof.
  assert (Ha : 0 <= Py.round 3600) by (vm_compute; discriminate).
  assert (Hb : 0 <= Py.round (7199 # 2)) by (vm_compute; discriminate).
  assert (Hc : secs_to_readable 3600 = secs_to_readable (7199 # 2))
    by (vm_compute; reflexivity).
  split; [ exact Ha | split; [ exact Hb | split; [ exact Hc | ] ] ].
  exact (secs_to_readable_injective 3600 (7199 # 2) Ha Hb Hc).
Defined.

(** X3.  A negative duration shows all three units: floor division makes the
    hours negative and keeps minutes and seconds in [0, 60), so -1 second
    is written [-1h59m59s]. *)
Theorem secs_to_readable_negative (q : Q) :
  Py.round q < 0 ->
  exists hours minutes seconds,
    hours < 0 /\ 0 <= minutes < 60 /\ 0 <= seconds < 60 /\
    hours * 3600 + minutes * 60 + seconds = Py.round q /\
    secs_to_readable q
    = str hours +:+ "h" +:+ str minutes +:+ "m" +:+ str seconds +:+ "s" /\
    String.get 0 (secs_to_readable q) = Some "-"%char.
Proof.
  intros Hn. unfold secs_to_readable, divmod. set (n := Py.round q) in *.
  exists (n / 3600), (n mod 3600 / 60), ((n mod 3600) mod 60).
  assert (Hh : n / 3600 < 0) by (Z.to_euclidean_division_equations; lia).
  split; [ exact Hh | ].
  split; [ Z.to_euclidean_division_equations; lia | ].
  split; [ Z.to_euclidean_division_equations; lia | ].
  split; [ Z.to_euclidean_division_equations; lia | ].
  unfold truthy_int. destruct (Z.eqb_spec (n / 3600) 0) as [E|E]; [ lia | ].
  simpl. rewrite !append_assoc, !append_nil, ?append_cons.
  split; [ now rewrite ?append_assoc | ].
  destruct (n / 3600) as [|p|p]; [ lia | lia | reflexivity ].
Qed.

Lemma secs_to_readable_negative_witness :
  Py.round (-1) < 0 /\
  String.get 0 (secs_to_readable (-1)) = Some "-"%char.
Proof.
  assert (Hn : Py.round (-1) < 0) by (vm_compute; reflexivity).
  split; [ exact Hn | ].
  destruct (secs_to_readable_negative (-1) Hn)
    as (h & m & sec & _ & _ & _ & _ & _ & Hminus).
  exact Hminus.
Defined.

(** ** The prompt field beyond the claims *)

(** What [long_cmd_duration] does, case by case. *)
Lemma long_cmd_duration_short cfg h w s start_t end_t :
  last (tss h) = Some (start_t, end_t) ->
  (end_t - start_t <= LONG_DURATION cfg)%Q ->
  long_cmd_duration cfg h w s = (s, Ok None).
Proof.
  intros Hts Hle. unfold long_cmd_duration. rewrite Hts.
  apply num_gt_false in Hle. now rewrite Hle.
Qed.

Lemma long_cmd_duration_long cfg h w s start_t end_t :
  last (tss h) = Some (start_t, end_t) ->
  (LONG_DURATION cfg < end_t - start_t)%Q ->
  long_cmd_duration cfg h w s
  = if TRIGGER_NOTIFICATION cfg then
      match notify_user cfg h (secs_to_readable (end_t - start_t)) w s with
      | (s', Ok _) => (s', Ok (Some (secs_to_readable (end_t - start_t))))
      | (s', Raise e) => (s', Raise e)
      end
    else (s, Ok (Some (secs_to_readable (end_t - start_t)))).
Proof.
  intros Hts Hgt. unfold long_cmd_duration. rewrite Hts.
  apply num_gt_true in Hgt. rewrite Hgt.
  destruct (TRIGGER_NOTIFICATION cfg); reflexivity.
Qed.

Lemma long_cmd_duration_cases cfg h w s :
  long_cmd_duration cfg h w s = (s, Ok None) \/
  exists start_t end_t,
    last (tss h) = Some (start_t, end_t) /\
    (LONG_DURATION cfg < end_t - start_t)%Q /\
    long_cmd_duration cfg h w s
    = if TRIGGER_NOTIFICATION cfg then
        match notify_user cfg h (secs_to_readable (end_t - start_t)) w s with
        | (s', Ok _) => (s', Ok (Some (secs_to_readable (end_t - start_t))))
        | (s', Raise e) => (s', Raise e)
        end
      else (s, Ok (Some (secs_to_readable (end_t - start_t)))).
Proof.
  destruct (last (tss h)) as [[start_t end_t]|] eqn:Hts.
  - destruct (Qlt_le_dec (LONG_DURATION cfg) (end_t - start_t)) as [Hgt|Hle].
    + right. exists start_t, end_t. split; [ reflexivity | ].
      split; [ exact Hgt | now apply long_cmd_duration_long ].
    + left. now apply (long_cmd_duration_short _ _ _ _ start_t end_t).
  - left. unfold long_cmd_duration. now rewrite Hts.
Qed.

Lemma notify_user_sent cfg h readable w s s' r :
  notify_user cfg h readable w s = (s', r) ->
  sent s' = sent s \/ exists noti, sent s' = (sent s ++ [noti])%list.
Proof.
  unfold notify_user, bind, lift, ask, send, ret.
  destruct (last_item (rtns h)) as [rtn|e]; [ | intros [= <- _]; now left ].
  destruct (last_item (inps h)) as [cmd|e]; [ | intros [= <- _]; now left ].
  destruct (is_app_window_focused w s) as [s1 [[|]|e]] eqn:Hp;
    pose proof (keeps_sent_probe _ _ _ _ Hp) as Hs;
    intros [= <- _]; simpl; rewrite ?Hs; eauto.
Qed.

(** X4.  One call of the prompt field hands at most one notification to the
    back end, and none at all when notifications are disabled or the last
    interval does not exceed the threshold. *)
Theorem long_cmd_duration_at_most_one cfg h w s s' r :
  long_cmd_duration cfg h w s = (s', r) ->
  (sent s' = sent s \/ exists noti, sent s' = (sent s ++ [noti])%list) /\
  (TRIGGER_NOTIFICATION cfg = false -> s' = s) /\
  (forall start_t end_t,
     last (tss h) = Some (start_t, end_t) ->
     (end_t - start_t <= LONG_DURATION cfg)%Q -> s' = s).
Proof.
  intros Hrun. split; [ | split ].
  - destruct (long_cmd_duration_cases cfg h w s) as [E|(a & b & _ & _ & E)];
      rewrite E in Hrun.
    + injection Hrun as <- _. now left.
    + destruct (TRIGGER_NOTIFICATION cfg); [ | injection Hrun as <- _; now left ].
      destruct (notify_user cfg h _ w s) as [s1 [u|e]] eqn:Hn;
        injection Hrun as <- _; eapply notify_user_sent, Hn.
  - intros Hoff.
    destruct (long_cmd_duration_cases cfg h w s) as [E|(a & b & _ & _ & E)];
      rewrite E in Hrun; [ | rewrite Hoff in Hrun ]; now injection Hrun.
  - intros a b Hts Hle.
    rewrite (long_cmd_duration_short _ _ _ _ _ _ Hts Hle) in Hrun.
    now injection Hrun.
Qed.

Lemma long_cmd_duration_at_most_one_witness :
  sent (fst (long_cmd_duration (load_config bare_env) (slept 0)
               (linux_host "123" (fun _ => Ok tt)) init_state))
  = sent init_state \/
  exists noti,
    sent (fst (long_cmd_duration (load_config bare_env) (slept 0)
                 (linux_host "123" (fun _ => Ok tt)) init_state))
    = (sent init_state ++ [noti])%list.
Proof.
  exact (proj1 (long_cmd_duration_at_most_one (load_config bare_env) (slept 0)
                  (linux_host "123" (fun _ => Ok tt)) init_state
                  (record_spawn ["xdotool"; "getactivewindow"] init_state)
                  (Ok (Some "12s")) eq_refl)).
Defined.

(** X5.  The value shown in the prompt does not depend on the platform, the
    focus state or the notification back end: two runs on the same
    history and configuration that both return, return the same value. *)
Theorem long_cmd_duration_value_independent cfg h w1 s1 w2 s2 s1' s2' v1 v2 :
  long_cmd_duration cfg h w1 s1 = (s1', Ok v1) ->
  long_cmd_duration cfg h w2 s2 = (s2', Ok v2) ->
  v1 = v2.
Proof.
  intros H1 H2.
  destruct (last (tss h)) as [[a b]|] eqn:Hts.
  - destruct (Qlt_le_dec (LONG_DURATION cfg) (b - a)) as [Hgt|Hle].
    + rewrite (long_cmd_duration_long _ _ _ _ _ _ Hts Hgt) in H1.
      rewrite (long_cmd_duration_long _ _ _ _ _ _ Hts Hgt) in H2.
      destruct (TRIGGER_NOTIFICATION cfg).
      * destruct (notify_user cfg h _ w1 s1) as [? [?|?]]; [ | discriminate ].
        destruct (notify_user cfg h _ w2 s2) as [? [?|?]]; [ | discriminate ].
        congruence.
      * congruence.
    + rewrite (long_cmd_duration_short _ _ _ _ _ _ Hts Hle) in H1.
      rewrite (long_cmd_duration_short _ _ _ _ _ _ Hts Hle) in H2.
      congruence.
  - unfold long_cmd_duration in H1, H2. rewrite Hts in H1, H2.
    unfold ret in *. congruence.
Qed.

Lemma long_cmd_duration_value_independent_witness :
  long_cmd_duration (load_config bare_env) (slept 0)
    (linux_host "123" (fun _ => Ok tt)) init_state
  = (record_spawn ["xdotool"; "getactivewindow"] init_state, Ok (Some "12s")) /\
  forall s2' v2,
    long_cmd_duration (load_config bare_env) (slept 0) freebsd_host init_state
    = (s2', Ok v2) ->
    Some "12s" = v2.
Proof.
  split; [ reflexivity | ].
  intros s2' v2 H2.
  exact (long_cmd_duration_value_independent (load_config bare_env) (slept 0)
           (linux_host "123" (fun _ => Ok tt)) init_state freebsd_host
           init_state _ s2' (Some "12s") v2 eq_refl H2).
Defined.

(** X6.  Only the newest entry of each history list is read: histories that
    agree on their last timestamps, exit code and input behave alike. *)
Theorem long_cmd_duration_last_only cfg h1 h2 w s :
  last (tss h1) = last (tss h2) ->
  last (rtns h1) = last (rtns h2) ->
  last (inps h1) = last (inps h2) ->
  long_cmd_duration cfg h1 w s = long_cmd_duration cfg h2 w s.
Proof.
  intros Ht Hr Hi. unfold long_cmd_duration, notify_user, last_item.
  now rewrite Ht, Hr, Hi.
Qed.

Lemma long_cmd_duration_last_only_witness :
  long_cmd_duration (load_config bare_env)
    {| tss := [(3, 4)%Q; (0, 12)%Q]; rtns := [7; 0]; inps := ["ls"; "sleep 12"] |}
    freebsd_host init_state
  = long_cmd_duration (load_config bare_env) (slept 0) freebsd_host init_state.
Proof.
  exact (long_cmd_duration_last_only (load_config bare_env)
           {| tss := [(3, 4)%Q; (0, 12)%Q]; rtns := [7; 0];
              inps := ["ls"; "sleep 12"] |}
           (slept 0) freebsd_host init_state eq_refl eq_refl eq_refl).
Defined.

(** X7.  With a threshold of at least half a second the prompt value is never
    the empty string: the interval then rounds to one second or more. *)
Theorem long_cmd_duration_nonempty cfg h w s s' v :
  (1 # 2 <= LONG_DURATION cfg)%Q ->
  long_cmd_duration cfg h w s = (s', Ok (Some v)) ->
  v <> "".
Proof.
  intros Hth Hrun.
  destruct (long_cmd_duration_cases cfg h w s) as [E|(a & b & _ & Hgt & E)];
    rewrite E in Hrun; [ discriminate | ].
  assert (Hv : v = secs_to_readable (b - a)).
  { destruct (TRIGGER_NOTIFICATION cfg); [ | congruence ].
    destruct (notify_user cfg h _ w s) as [? [?|?]]; congruence. }
  rewrite Hv. apply secs_to_readable_shown.
  assert (1 <= Py.round (b - a)) by (apply round_above_half; lra). lia.
Qed.

Lemma long_cmd_duration_nonempty_witness :
  (1 # 2 <= LONG_DURATION (load_config bare_env))%Q /\
  long_cmd_duration (load_config bare_env) (slept 0) freebsd_host init_state
  = (record_sent {| application_name := "xonsh"; title := "sleep 12";
                    message := "Done in 12s" |} init_state,
     Ok (Some "12s")) /\
  "12s" <> "".
Proof.
  assert (Hth : (1 # 2 <= LONG_DURATION (load_config bare_env))%Q)
    by (vm_compute; discriminate).
  split; [ exact Hth | ]. split; [ reflexivity | ].
  exact (long_cmd_duration_nonempty (load_config bare_env) (slept 0)
           freebsd_host init_state _ "12s" Hth eq_refl).
Defined.

(** Below that, the zero-second case shows: with a threshold of 0 a
    command that took 0.4 s gives the empty prompt value and a message
    that ends after [in]. *)
Example zero_threshold_empty_value :
  long_cmd_duration
    {| LONG_DURATION := 0; TRIGGER_NOTIFICATION := true;
       NOTIFICATION_APP_NAME := "xonsh" |}
    {| tss := [(0, 2 # 5)%Q]; rtns := [0]; inps := ["true"] |}
    freebsd_host init_state
  = (record_sent {| application_name := "xonsh"; title := "true";
                    message := "Done in " |} init_state,
     Ok (Some "")).
Proof. vm_compute. reflexivity. Qed.

(** X8.  An exception of the focus probe ends [notify_user] before anything
    is sent, and leaves [long_cmd_duration] in place of the prompt
    value. *)
Theorem probe_exception_reaches_prompt cfg h w s s1 e start_t end_t rtn cmd :
  last (tss h) = Some (start_t, end_t) ->
  (LONG_DURATION cfg < end_t - start_t)%Q ->
  TRIGGER_NOTIFICATION cfg = true ->
  last (rtns h) = Some rtn ->
  last (inps h) = Some cmd ->
  is_app_window_focused w s = (s1, Raise e) ->
  long_cmd_duration cfg h w s = (s1, Raise e) /\ sent s1 = sent s.
Proof.
  intros Hts Hgt Hon Hr Hc Hp.
  rewrite (long_cmd_duration_long _ _ _ _ _ _ Hts Hgt), Hon.
  unfold notify_user.
  rewrite (bind_ok _ _ w s s rtn) by (unfold lift; now rewrite (last_item_ok _ _ Hr)).
  rewrite (bind_ok _ _ w s s cmd) by (unfold lift; now rewrite (last_item_ok _ _ Hc)).
  rewrite (bind_raise _ _ w s s1 e Hp).
  split; [ reflexivity | eapply keeps_sent_probe, Hp ].
Qed.

Lemma probe_exception_reaches_prompt_witness :
  long_cmd_duration (load_config bare_env) (slept 0)
    (darwin_host (fun _ => Raise (CalledProcessError 1))) init_state
  = (record_spawn ["lsappinfo"; "find"; "bundleID=com.apple.Terminal"] init_state,
     Raise (CalledProcessError 1)).
Proof.
  exact (proj1 (probe_exception_reaches_prompt (load_config bare_env) (slept 0)
                  (darwin_host (fun _ => Raise (CalledProcessError 1)))
                  init_state _ (CalledProcessError 1) 0%Q 12%Q 0 "sleep 12"
                  eq_refl eq_refl eq_refl eq_refl eq_refl eq_refl)).
Defined.

(** ** The Linux probe beyond the claims *)

(** The probe on Linux, outcome by outcome. *)
Lemma linux_probe_unfold w s :
  platform_system w = "Linux" ->
  is_app_window_focused w s
  = if negb (truthy_opt (WINDOWID (env w))) then
      (record_warning WarnWindowIdUnset s, Ok false)
    else
      match check_output w ["xdotool"; "getactivewindow"] with
      | Raise e =>
          (record_warning (WarnXdotool e)
             (record_spawn ["xdotool"; "getactivewindow"] s), Ok false)
      | Ok out =>
          match decode out with
          | Raise e =>
              (record_warning (WarnXdotool e)
                 (record_spawn ["xdotool"; "getactivewindow"] s), Ok false)
          | Ok txt =>
              (record_spawn ["xdotool"; "getactivewindow"] s,
               Ok (bool_decide (Some (strip str_isspace txt) = WINDOWID (env w))))
          end
      end.
Proof.
  intros Hsys.
  unfold is_app_window_focused, bind, ask, is_darwin_system, is_linux_system,
    is_system. rewrite Hsys. simpl.
  unfold _linux_is_app_window_focused, bind, ask.
  destruct (WINDOWID (env w)) as [id|]; [ | reflexivity ].
  destruct (negb (truthy_opt (Some id))); [ reflexivity | ].
  unfold _xdotool_window_id, try_except, bind, sp_check_output, lift, ret, _warn.
  destruct (check_output w _) as [out|e]; [ | reflexivity ].
  destruct (decode out) as [txt|e]; reflexivity.
Qed.

(** X9.  On Linux the probe never raises: a failing or missing [xdotool], or
    output that is not valid UTF-8, ends in [False]. *)
Theorem linux_probe_never_raises w s :
  platform_system w = "Linux" ->
  exists s' b, is_app_window_focused w s = (s', Ok b).
Proof.
  intros Hsys. rewrite (linux_probe_unfold w s Hsys).
  destruct (negb _); [ eauto | ].
  destruct (check_output w _) as [out|e]; [ | eauto ].
  destruct (decode out); eauto.
Qed.

Lemma linux_probe_never_raises_witness :
  platform_system
    {| platform_system := "Linux"; env := with_WINDOWID "123" bare_env;
       check_output := fun _ => Ok (String (ascii_of_N 255) "");
       prompt_formatter := fun t => t; notify_send := fun _ => Ok tt |}
  = "Linux" /\
  exists s' b,
    is_app_window_focused
      {| platform_system := "Linux"; env := with_WINDOWID "123" bare_env;
         check_output := fun _ => Ok (String (ascii_of_N 255) "");
         prompt_formatter := fun t => t; notify_send := fun _ => Ok tt |}
      init_state
    = (s', Ok b).
Proof.
  split; [ reflexivity | ].
  apply linux_probe_never_raises. reflexivity.
Defined.



(** X11.  On Linux without a usable [WINDOWID] (unset or empty) the probe
    warns and answers [False] without running [xdotool]. *)
Theorem linux_probe_without_windowid w s :
  platform_system w = "Linux" ->
  truthy_opt (WINDOWID (env w)) = false ->
  is_app_window_focused w s = (record_warning WarnWindowIdUnset s, Ok false).
Proof.
  intros Hsys Hw. rewrite (linux_probe_unfold w s Hsys). now rewrite Hw.
Qed.

Lemma linux_probe_without_windowid_witness :
  is_app_window_focused
    {| platform_system := "Linux"; env := with_WINDOWID "" bare_env;
       check_output := fun _ => Ok "123";
       prompt_formatter := fun t => t; notify_send := fun _ => Ok tt |}
    init_state
  = (record_warning WarnWindowIdUnset init_state, Ok false).
Proof. apply linux_probe_without_windowid; reflexivity. Defined.

Lemma utf8_valid_ascii s : every (between 0 127) s = true -> utf8_valid s = true.
Proof.
  induction s as [|c r IH]; [ reflexivity | ]. simpl.
  intros H. apply andb_prop in H as [Hc Hr]. rewrite Hc. now apply IH.
Qed.

Lemma every_weaken (p q : ascii -> bool) s :
  (forall c, p c = true -> q c = true) -> every p s = true -> every q s = true.
Proof.
  intros Hpq. induction s as [|c r IH]; [ reflexivity | ]. simpl.
  intros H. apply andb_prop in H as [Hc Hr]. now rewrite (Hpq _ Hc), IH.
Qed.

Lemma every_app p a b : every p (a +:+ b) = every p a && every p b.
Proof.
  induction a as [|c r IH]; [ reflexivity | ].
  rewrite append_cons. simpl. now rewrite IH, andb_assoc.
Qed.

Lemma visible_not_space c : between 33 126 c = true -> str_isspace c = false.
Proof.
  destruct c as [[] [] [] [] [] [] [] []]; vm_compute; intros; congruence.
Qed.

Lemma rstrip_visible_newline s :
  every (between 33 126) s = true -> rstrip str_isspace (s +:+ newline) = s.
Proof.
  induction s as [|c r IH]; [ reflexivity | ].
  rewrite append_cons. simpl. intros H. apply andb_prop in H as [Hc Hr].
  rewrite (IH Hr). rewrite (visible_not_space _ Hc). now destruct r.
Qed.

Lemma strip_visible_newline s :
  every (between 33 126) s = true -> strip str_isspace (s +:+ newline) = s.
Proof.
  intros H. unfold strip.
  destruct s as [|c r]; [ reflexivity | ].
  rewrite append_cons. simpl lstrip.
  pose proof H as H'. simpl in H'. apply andb_prop in H' as [Hc _].
  rewrite (visible_not_space _ Hc).
  rewrite <- append_cons. now apply rstrip_visible_newline.
Qed.

(** X12.  On Linux, when [xdotool] prints a window id of visible ASCII
    characters followed by a newline, the probe answers by comparing that
    id with [WINDOWID], and logs nothing. *)
Theorem linux_probe_compares_ids w s id active :
  platform_system w = "Linux" ->
  WINDOWID (env w) = Some id ->
  id <> "" ->
  every (between 33 126) active = true ->
  check_output w ["xdotool"; "getactivewindow"] = Ok (active +:+ newline) ->
  is_app_window_focused w s
  = (record_spawn ["xdotool"; "getactivewindow"] s,
     Ok (bool_decide (active = id))).
Proof.
  intros Hsys Hw Hne Hvis Hout.
  rewrite (linux_probe_unfold w s Hsys), Hw, Hout.
  destruct id; [ contradiction | ]. simpl negb. cbv iota.
  unfold decode. rewrite utf8_valid_ascii.
  - rewrite (strip_visible_newline _ Hvis). do 2 f_equal.
    apply bool_decide_ext. split; congruence.
  - assert (Hsub : forall c, between 33 126 c = true -> between 0 127 c = true).
    { intros c. destruct c as [[] [] [] [] [] [] [] []]; vm_compute; congruence. }
    rewrite every_app, (every_weaken _ _ _ Hsub Hvis). reflexivity.
Qed.

Lemma linux_probe_compares_ids_witness :
  is_app_window_focused (linux_host "0x4a00007" (fun _ => Ok tt)) init_state
  = (record_spawn ["xdotool"; "getactivewindow"] init_state,
     Ok (bool_decide ("0x4a00007" = "123"))).
Proof.
  apply (linux_probe_compares_ids (linux_host "0x4a00007" (fun _ => Ok tt))
           init_state "123" "0x4a00007");
    [ reflexivity | reflexivity | discriminate | reflexivity | reflexivity ].
Defined.

(** ** Reading the answer of [lsappinfo find] *)

Lemma occurs_app c a b : occurs c (a +:+ b) = occurs c a || occurs c b.
Proof.
  induction a as [|x a IH]; [ reflexivity | ].
  rewrite append_cons. simpl. now rewrite IH, orb_assoc.
Qed.

Lemma repr_body_app q a b :
  repr_body q (a +:+ b) = repr_body q a +:+ repr_body q b.
Proof.
  induction a as [|x a IH]; [ reflexivity | ].
  rewrite append_cons. simpl. rewrite IH.
  repeat match goal with
         | |- context [if ?c then _ else _] => destruct c
         end; reflexivity.
Qed.

Lemma split_none sep a : occurs sep a = false -> split sep a = [a].
Proof.
  induction a as [|x a IH]; [ reflexivity | ]. simpl.
  intros H. apply orb_false_iff in H as [Hx Ha].
  now rewrite Hx, (IH Ha).
Qed.

Lemma split_at_first sep a r :
  occurs sep a = false ->
  split sep (a +:+ String sep r) = a :: split sep r.
Proof.
  induction a as [|x a IH].
  - intros _. rewrite append_nil. simpl. now rewrite Ascii.eqb_refl.
  - intros H. change (Ascii.eqb x sep || occurs sep a = false) in H.
    apply orb_false_iff in H as [Hx Ha].
    rewrite append_cons.
    change (split sep (String x (a +:+ String sep r)))
      with (if Ascii.eqb x sep then "" :: split sep (a +:+ String sep r)
            else match split sep (a +:+ String sep r) with
                 | y :: ys => String x y :: ys
                 | [] => [String x ""]
                 end).
    now rewrite Hx, (IH Ha).
Qed.

Lemma repr_body_step_squote c r :
  c <> dquote ->
  occurs dquote (repr_body "'" (String c r)) = occurs dquote (repr_body "'" r).
Proof.
  destruct c as [[] [] [] [] [] [] [] []]; intros Hc;
    try reflexivity; now contradiction Hc.
Qed.

Lemma repr_body_step_dquote c r :
  c <> dquote ->
  occurs dquote (repr_body dquote (String c r))
  = occurs dquote (repr_body dquote r).
Proof.
  destruct c as [[] [] [] [] [] [] [] []]; intros Hc;
    try reflexivity; now contradiction Hc.
Qed.

(** Escaping adds no double quote. *)
Lemma repr_body_dquote_free b :
  occurs dquote b = false ->
  occurs dquote (repr_body "'" b) = false /\
  occurs dquote (repr_body dquote b) = false.
Proof.
  induction b as [|c r IH]; [ now split | ].
  intros H. change (Ascii.eqb c dquote || occurs dquote r = false) in H.
  apply orb_false_iff in H as [Hc Hr]. apply Ascii.eqb_neq in Hc.
  rewrite (repr_body_step_squote c r Hc), (repr_body_step_dquote c r Hc).
  now apply IH.
Qed.

Lemma repr_body_plain_char c r :
  plain c = true -> repr_body "'" (String c r) = String c (repr_body "'" r).
Proof.
  destruct c as [[] [] [] [] [] [] [] []];
    try (intros H; vm_compute in H; discriminate H);
    intros _; reflexivity.
Qed.

Lemma repr_body_plain b : every plain b = true -> repr_body "'" b = b.
Proof.
  induction b as [|c r IH]; [ reflexivity | ].
  intros H. change (plain c && every plain r = true) in H.
  apply andb_prop in H as [Hc Hr].
  now rewrite (repr_body_plain_char c r Hc), (IH Hr).
Qed.

Lemma plain_dquote_free b : every plain b = true -> occurs dquote b = false.
Proof.
  induction b as [|c r IH]; [ reflexivity | ].
  intros H. change (plain c && every plain r = true) in H.
  apply andb_prop in H as [Hc Hr].
  change (Ascii.eqb c dquote || occurs dquote r = false).
  rewrite (IH Hr), orb_false_r. unfold plain in Hc.
  apply andb_prop in Hc as [_ Hc]. now apply negb_true_iff in Hc.
Qed.

Lemma quoted_app name post :
  quoted name +:+ post = String dquote (name +:+ String dquote post).
Proof. unfold quoted. now rewrite append_cons, append_assoc. Qed.

(** The second piece of the split text is the first quoted name. *)
Lemma bundle_name_parse pre name post :
  occurs dquote pre = false ->
  occurs dquote name = false ->
  item (split dquote (bytes_repr (pre +:+ quoted name +:+ post))) 1
  = Ok (repr_body "'" name).
Proof.
  intros Hpre Hname. unfold bytes_repr.
  assert (Hq : repr_quote (pre +:+ quoted name +:+ post) = "'"%char).
  { unfold repr_quote. rewrite quoted_app, !occurs_app.
    change (occurs dquote (String dquote (name +:+ String dquote post)))
      with true.
    now rewrite orb_true_r, andb_false_r. }
  rewrite Hq, quoted_app, !repr_body_app.
  change (repr_body "'" (String dquote (name +:+ String dquote post)))
    with (String dquote (repr_body "'" (name +:+ String dquote post))).
  rewrite repr_body_app.
  change (repr_body "'" (String dquote post))
    with (String dquote (repr_body "'" post)).
  set (P := repr_body "'" pre). set (N := repr_body "'" name).
  set (R := repr_body "'" post).
  repeat (rewrite append_assoc || rewrite append_cons).
  change (String "b" (String "'" (P +:+ String dquote (N +:+ String dquote (R +:+ "'")))))
    with (String "b" (String "'" P)
          +:+ String dquote (N +:+ String dquote (R +:+ "'"))).
  rewrite split_at_first.
  - rewrite split_at_first; [ reflexivity | ].
    now apply repr_body_dquote_free.
  - change (occurs dquote P = false). now apply repr_body_dquote_free.
Qed.

(** Without any quote character in the answer there is no second piece. *)
Lemma bundle_name_missing out :
  occurs dquote out = false ->
  occurs "'" out = false ->
  item (split dquote (bytes_repr out)) 1 = Raise IndexError.
Proof.
  intros Hd Hs. unfold bytes_repr, repr_quote. rewrite Hs. simpl andb. cbv iota.
  rewrite split_none; [ reflexivity | ].
  simpl occurs. rewrite occurs_app.
  destruct (repr_body_dquote_free out Hd) as [-> _]. reflexivity.
Qed.

(** ** The Darwin probe beyond the claims *)

Lemma darwin_probe_unfold w s :
  platform_system w = "Darwin" ->
  is_app_window_focused w s = _darwin_is_app_window_focused w s.
Proof.
  intros Hsys.
  unfold is_app_window_focused, bind, ask, is_darwin_system, is_system.
  now rewrite Hsys.
Qed.

Lemma truthy_nonempty s : s <> "" -> truthy_str s = true.
Proof. destruct s; [ contradiction | reflexivity ]. Qed.

Ltac probe_step :=
  cbn [truthy_opt default from_option id negb]; cbv beta iota.

Ltac probe_unfold :=
  unfold _darwin_is_app_window_focused, bind, ask, lift, ret, sp_check_output.

(** X13.  On Darwin, when [lsappinfo find] answers with a quoted name made of
    plain printable characters, that name is the application asked
    about: the probe runs [lsappinfo info -app name], never looks at
    [TERM_PROGRAM], and answers by the marker in that output. *)
Theorem darwin_probe_by_bundle w s b raw pre name post :
  platform_system w = "Darwin" ->
  __CFBundleIdentifier (env w) = Some b ->
  b <> "" ->
  check_output w ["lsappinfo"; "find"; "bundleID=" +:+ b] = Ok raw ->
  strip bytes_isspace raw = pre +:+ quoted name +:+ post ->
  occurs dquote pre = false ->
  every plain name = true ->
  name <> "" ->
  is_app_window_focused w s
  = front_query name w
      (record_spawn ["lsappinfo"; "find"; "bundleID=" +:+ b] s).
Proof.
  intros Hsys Hb Hne Hout Hstrip Hpre Hplain Hname.
  rewrite (darwin_probe_unfold w s Hsys). probe_unfold.
  rewrite Hb. probe_step. rewrite (truthy_nonempty b Hne). probe_step.
  rewrite Hout. probe_step.
  rewrite Hstrip, (bundle_name_parse pre name post Hpre
                     (plain_dquote_free name Hplain)).
  rewrite (repr_body_plain name Hplain). probe_step.
  repeat (rewrite (truthy_nonempty name Hname); probe_step).
  unfold front_query, _warn.
  destruct (check_output w ["lsappinfo"; "info"; "-app"; name]) as [out|e];
    [ | reflexivity ].
  now destruct out.
Qed.

Lemma darwin_probe_by_bundle_witness :
  is_app_window_focused (darwin_host lsappinfo) init_state
  = front_query "Terminal" (darwin_host lsappinfo)
      (record_spawn ["lsappinfo"; "find"; "bundleID=com.apple.Terminal"]
         init_state).
Proof.
  apply (darwin_probe_by_bundle (darwin_host lsappinfo) init_state
           "com.apple.Terminal"
           ("ASN:0x0-0x4c04c-" +:+ quoted "Terminal" +:+ ":" +:+ newline)
           "ASN:0x0-0x4c04c-" "Terminal" ":");
    [ reflexivity | reflexivity | discriminate | reflexivity | reflexivity
    | reflexivity | reflexivity | discriminate ].
Defined.

(** X14.  On Darwin, when the answer of [lsappinfo find] (white space removed)
    holds neither a double nor a single quote - an empty answer for a
    bundle that is not running, for one - indexing the split text raises
    [IndexError], which leaves the probe. *)
Theorem darwin_probe_unquoted_answer w s b raw :
  platform_system w = "Darwin" ->
  __CFBundleIdentifier (env w) = Some b ->
  b <> "" ->
  check_output w ["lsappinfo"; "find"; "bundleID=" +:+ b] = Ok raw ->
  occurs dquote (strip bytes_isspace raw) = false ->
  occurs "'" (strip bytes_isspace raw) = false ->
  is_app_window_focused w s
  = (record_spawn ["lsappinfo"; "find"; "bundleID=" +:+ b] s, Raise IndexError).
Proof.
  intros Hsys Hb Hne Hout Hd Hs.
  rewrite (darwin_probe_unfold w s Hsys). probe_unfold.
  rewrite Hb. probe_step. rewrite (truthy_nonempty b Hne). probe_step.
  rewrite Hout. probe_step.
  now rewrite (bundle_name_missing _ Hd Hs).
Qed.

Lemma darwin_probe_unquoted_answer_witness :
  is_app_window_focused
    {| platform_system := "Darwin";
       env := with_bundle "org.example.gone" bare_env;
       check_output := lsappinfo;
       prompt_formatter := fun t => t;
       notify_send := fun _ => Ok tt |} init_state
  = (record_spawn ["lsappinfo"; "find"; "bundleID=" +:+ "org.example.gone"]
       init_state,
     Raise IndexError).
Proof.
  apply (darwin_probe_unquoted_answer _ init_state "org.example.gone" "");
    [ reflexivity | reflexivity | discriminate | reflexivity | reflexivity
    | reflexivity ].
Defined.

(** X15.  On Darwin without a bundle identifier, a non-empty [TERM_PROGRAM] is
    resolved through the memo table (filled from the mapping on a miss);
    a non-empty resolved name is the application asked about, an empty
    one ends in a warning and [False]. *)
Theorem darwin_probe_by_term_program w s t :
  platform_system w = "Darwin" ->
  truthy_opt (__CFBundleIdentifier (env w)) = false ->
  TERM_PROGRAM (env w) = Some t ->
  t <> "" ->
  let name :=
    default (_darwin_get_app_name_body (env w) t) (app_name_cache s !! t) in
  let s1 :=
    match app_name_cache s !! t with
    | Some _ => s
    | None => record_app_name t name s
    end in
  is_app_window_focused w s
  = if truthy_str name then front_query name w s1
    else (record_warning
            (WarnAppNotFound (Some t) (_term_program_mapping (env w))) s1,
          Ok false).
Proof.
  intros Hsys Hb Ht Hne name s1.
  rewrite (darwin_probe_unfold w s Hsys). probe_unfold.
  rewrite Hb, Ht. probe_step. rewrite (truthy_nonempty t Hne). probe_step.
  unfold _darwin_get_app_name. subst name s1.
  destruct (app_name_cache s !! t) as [cached|]; probe_step.
  - destruct (truthy_str cached) eqn:Hn; probe_step; [ | reflexivity ].
    repeat (rewrite Hn; probe_step). unfold front_query, _warn.
    destruct (check_output w _) as [out|e]; [ | reflexivity ].
    now destruct out.
  - destruct (truthy_str (_darwin_get_app_name_body (env w) t)) eqn:Hn;
      probe_step; [ | reflexivity ].
    repeat (rewrite Hn; probe_step). unfold front_query, _warn.
    destruct (check_output w _) as [out|e]; [ | reflexivity ].
    now destruct out.
Qed.

Lemma darwin_probe_by_term_program_witness :
  is_app_window_focused (darwin_term_host "Apple_Terminal") init_state
  = front_query "Terminal" (darwin_term_host "Apple_Terminal")
      (record_app_name "Apple_Terminal" "Terminal" init_state).
Proof.
  exact (darwin_probe_by_term_program (darwin_term_host "Apple_Terminal")
           init_state "Apple_Terminal" eq_refl eq_refl eq_refl
           ltac:(discriminate)).
Defined.

(** X16.  On Darwin with neither a bundle identifier nor a [TERM_PROGRAM]
    (unset or empty) the probe warns and answers [False] without running
    any command. *)
Theorem darwin_probe_unresolved w s :
  platform_system w = "Darwin" ->
  truthy_opt (__CFBundleIdentifier (env w)) = false ->
  truthy_opt (TERM_PROGRAM (env w)) = false ->
  is_app_window_focused w s
  = (record_warning
       (WarnAppNotFound (TERM_PROGRAM (env w)) (_term_program_mapping (env w))) s,
     Ok false).
Proof.
  intros Hsys Hb Ht.
  rewrite (darwin_probe_unfold w s Hsys). probe_unfold.
  rewrite Hb, Ht. reflexivity.
Qed.

Lemma darwin_probe_unresolved_witness :
  is_app_window_focused
    {| platform_system := "Darwin"; env := bare_env;
       check_output := lsappinfo;
       prompt_formatter := fun t => t;
       notify_send := fun _ => Ok tt |} init_state
  = (record_warning (WarnAppNotFound None (_term_program_mapping bare_env))
       init_state,
     Ok false).
Proof. apply darwin_probe_unresolved; reflexivity. Defined.

(** ** What the probe changes *)

Lemma platform_cases w s :
  (platform_system w = "Darwin" /\
   is_app_window_focused w s = _darwin_is_app_window_focused w s) \/
  (platform_system w = "Linux" /\
   is_app_window_focused w s = _linux_is_app_window_focused w s) \/
  (platform_system w <> "Darwin" /\ platform_system w <> "Linux" /\
   is_app_window_focused w s = (s, Ok false)).
Proof.
  destruct (decide (platform_system w = "Darwin")) as [Hd|Hd].
  - left. split; [ exact Hd | now apply darwin_probe_unfold ].
  - destruct (decide (platform_system w = "Linux")) as [Hl|Hl].
    + right. left. split; [ exact Hl | ].
      unfold is_app_window_focused, bind, ask, is_darwin_system,
        is_linux_system, is_system. rewrite Hl. reflexivity.
    + right. right. split; [ exact Hd | ]. split; [ exact Hl | ].
      now apply probe_other_os.
Qed.

(** X17.  An answer of [True] comes with no warning: whenever the probe
    reports the window focused, on any platform, the log is as it was. *)
Theorem probe_true_logs_nothing w s s' :
  is_app_window_focused w s = (s', Ok true) ->
  log s' = log s.
Proof.
  intros H.
  destruct (platform_cases w s) as [[Hsys E]|[[Hsys _]|(_ & _ & E)]].
  - rewrite E in H; clear E.
    revert H. probe_unfold. unfold _darwin_get_app_name, _warn.
    intros H. repeat case_match; simplify_eq/=; try reflexivity.
    all: match goal with
         | Hn : negb (truthy_str ?a) = true, Hc : contains _ ?a = true |- _ =>
             destruct a; discriminate
         end.
  - rewrite (linux_probe_unfold w s Hsys) in H.
    repeat case_match; simplify_eq/=; reflexivity.
  - rewrite E in H. now injection H as <- _.
Qed.

Lemma probe_true_logs_nothing_witness :
  is_app_window_focused (darwin_host lsappinfo) init_state
  = (record_spawn ["lsappinfo"; "info"; "-app"; "Terminal"]
       (record_spawn ["lsappinfo"; "find"; "bundleID=com.apple.Terminal"]
          init_state),
     Ok true) /\
  log (record_spawn ["lsappinfo"; "info"; "-app"; "Terminal"]
         (record_spawn ["lsappinfo"; "find"; "bundleID=com.apple.Terminal"]
            init_state))
  = log init_state.
Proof.
  split; [ reflexivity | ].
  apply (probe_true_logs_nothing (darwin_host lsappinfo)). reflexivity.
Defined.



(** ** The memo table and the mapping beyond the claims *)

(** X19.  [_darwin_get_app_name] is memoised per argument: a call never
    raises, and a second call with the same argument returns what the
    first returned and leaves the state alone, even when the mapping in
    the environment has changed in between. *)
Theorem app_name_memo t w1 w2 s s1 r1 :
  _darwin_get_app_name t w1 s = (s1, r1) ->
  (exists name, r1 = Ok name) /\
  _darwin_get_app_name t w2 s1 = (s1, r1).
Proof.
  unfold _darwin_get_app_name.
  destruct (app_name_cache s !! t) as [name|] eqn:Hc; intros [= <- <-].
  - split; [ eauto | ]. now rewrite Hc.
  - split; [ eauto | ]. simpl. now rewrite lookup_insert_eq.
Qed.

Lemma app_name_memo_witness :
  _darwin_get_app_name "vscode"
    (darwin_term_host "vscode") init_state
  = (record_app_name "vscode" "Code" init_state, Ok "Code") /\
  _darwin_get_app_name "vscode"
    {| platform_system := "Darwin";
       env := with_TERM_PROGRAM_MAP [("vscode", "VSCodium")] bare_env;
       check_output := lsappinfo;
       prompt_formatter := fun t => t;
       notify_send := fun _ => Ok tt |}
    (record_app_name "vscode" "Code" init_state)
  = (record_app_name "vscode" "Code" init_state, Ok "Code").
Proof.
  split; [ reflexivity | ].
  apply (app_name_memo "vscode" (darwin_term_host "vscode") _ init_state).
  reflexivity.
Defined.

Lemma lower_char_idem c : lower_char (lower_char c) = lower_char c.
Proof. destruct c as [[] [] [] [] [] [] [] []]; reflexivity. Qed.

Lemma lower_idem s : lower (lower s) = lower s.
Proof.
  induction s as [|c r IH]; [ reflexivity | ].
  simpl. now rewrite lower_char_idem, IH.
Qed.

(** X20.  Every key of the mapping is in lower case, whether the mapping comes
    from the user or from the built-in table. *)
Theorem term_program_mapping_keys_lower (e : Env) k v :
  _term_program_mapping e !! k = Some v ->
  lower k = k.
Proof.
  unfold _term_program_mapping. rewrite lower_keys_lookup.
  intros H. apply fmap_Some in H as (kv & Hlast & _).
  apply last_Some_elem_of, list_elem_of_filter in Hlast as [<- _].
  apply lower_idem.
Qed.

Lemma term_program_mapping_keys_lower_witness :
  _term_program_mapping
    (with_TERM_PROGRAM_MAP [("ITerm.App", "iTerm")] bare_env) !! "iterm.app"
  = Some "iTerm" /\
  lower "iterm.app" = "iterm.app".
Proof.
  split; [ reflexivity | ].
  apply (term_program_mapping_keys_lower
           (with_TERM_PROGRAM_MAP [("ITerm.App", "iTerm")] bare_env)
           "iterm.app" "iTerm").
  reflexivity.
Defined.



